(** * Content-based restaurant recommender: TF-IDF, cosine similarity, top-k

    A shallow embedding of the notebook [exploration.ipynb] (and of its
    earlier draft): the Spark ML stages it chains
    ([CountVectorizer], [IDF], [Normalizer], [IndexedRowMatrix] times its
    transpose), the numpy ranking idiom [row.argsort()[::-1][:k]], the class
    [CosinusSimilarityClassifier], and the session-side helper [get_dummies].

    Sparse Spark vectors are written as dense lists indexed by vocabulary
    position; a data frame is the list of its rows, restricted to the columns
    the code reads.  The library stages are embedded by what Spark and numpy
    document and implement for the parameters the notebook passes (defaults
    everywhere).

    Spark and numpy compute in IEEE binary64.  The stages after [IDF] are
    written over an abstract arithmetic and read both in binary64 and in
    exact real arithmetic; [IDF] takes a natural logarithm, which has no
    binary64 counterpart here, so it and the classifier as a whole are
    written over the reals, and binary64 runs start from weighted vectors. *)

From Stdlib Require Import String Ascii List Arith Bool Lia.
From Stdlib Require Import Permutation Sorted.
From Stdlib Require Import Floats.
From Stdlib Require Import Reals Lra.
Import ListNotations.

Set Implicit Arguments.

(** ** Data frames *)

Definition token := string.

(** A row of [tokens_df]: the columns [id] and [tokens].  The file stores the
    identifier as a zero-padded decimal string; [IndexedRow] converts it to
    an integer row index. *)
Record Row : Type := mkRow { id : nat; tokens : list token }.

Definition DataFrame := list Row.

(** ** CountVectorizer *)

Module CountVectorizer.

(** Spark's defaults: [vocabSize = 1 << 18], [minDF = 1], [minTF = 1]. *)
Definition vocabSize : nat := Nat.shiftl 1 18.

Definition term_count (doc : list token) (t : token) : nat :=
  count_occ string_dec doc t.

Definition corpus_count (df : DataFrame) (t : token) : nat :=
  list_sum (map (fun r => term_count (tokens r) t) df).

(** Insertion into a list kept in descending order of corpus count. *)
Fixpoint insert_by_count (df : DataFrame) (t : token) (l : list token)
  : list token :=
  match l with
  | [] => [t]
  | u :: l' =>
      if corpus_count df t <=? corpus_count df u
      then u :: insert_by_count df t l'
      else t :: u :: l'
  end.

(** [fit]: the distinct terms of the corpus, most frequent first, capped at
    [vocabSize].  Spark leaves the order of equally frequent terms
    unspecified; here they keep their order of appearance. *)
Definition fit (df : DataFrame) : list token :=
  firstn vocabSize
    (fold_left (fun acc t => insert_by_count df t acc)
       (nodup string_dec (List.concat (map tokens df))) []).

(** [transform]: one count per vocabulary entry; tokens outside the
    vocabulary are ignored. *)
Definition transform_row (voc : list token) (doc : list token) : list nat :=
  map (term_count doc) voc.

Definition transform (voc : list token) (df : DataFrame)
  : list (nat * list nat) :=
  map (fun r => (id r, transform_row voc (tokens r))) df.

End CountVectorizer.

(** ** IDF *)

Module IDF.
Local Open Scope R_scope.

Definition minDocFreq : nat := 0.

(** Number of rows whose count at column [t] is positive. *)
Definition doc_freq (tfs : list (list nat)) (t : nat) : nat :=
  length (filter (fun tf => (0 <? nth t tf 0)%nat) tfs).

(** The inverse document frequency of a term found in [df] of [m] rows, as
    Spark's [IDF] computes it: [math.log((m + 1.0) / (df + 1.0))], the
    natural logarithm, for a term found in at least [minDocFreq] rows. *)
Definition idf_value (m df : nat) : R :=
  if (minDocFreq <=? df)%nat then ln ((INR m + 1) / (INR df + 1)) else 0.

(** [fit]: one inverse document frequency per column of the [size]-column
    count vectors. *)
Definition fit (size : nat) (tfs : list (list nat)) : list R :=
  map (fun t => idf_value (length tfs) (doc_freq tfs t)) (seq 0 size).

(** [transform]: every count is multiplied by the idf of its column. *)
Definition transform_row (idf : list R) (tf : list nat) : list R :=
  map (fun p => INR (fst p) * snd p) (combine tf idf).

Definition transform (idf : list R) (df : list (nat * list nat))
  : list (nat * list R) :=
  map (fun r => (fst r, transform_row idf (snd r))) df.

End IDF.


(** ** Arithmetic of vector entries

    The stages after [IDF] only add, multiply, divide, take square roots and
    compare.  They are written once over these operations and read at two
    instances: [exact] (real numbers) and [binary64] (the IEEE doubles that
    Spark and numpy compute with). *)

Record Arith (T : Type) : Type := mkArith {
  a_zero : T;
  a_add : T -> T -> T;
  a_mul : T -> T -> T;
  a_div : T -> T -> T;
  a_root : T -> T;
  a_eqb : T -> T -> bool;
  a_leb : T -> T -> bool
}.

Definition exact : Arith R :=
  {| a_zero := 0%R;
     a_add := Rplus;
     a_mul := Rmult;
     a_div := Rdiv;
     a_root := sqrt;
     a_eqb := fun x y => if Req_dec_T x y then true else false;
     a_leb := fun x y => if Rle_dec x y then true else false |}.

Definition binary64 : Arith float :=
  {| a_zero := 0%float;
     a_add := PrimFloat.add;
     a_mul := PrimFloat.mul;
     a_div := PrimFloat.div;
     a_root := PrimFloat.sqrt;
     a_eqb := PrimFloat.eqb;
     a_leb := PrimFloat.leb |}.

(** ** Normalizer (p = 2) *)

Module Normalizer.
Section Over.
Variable T : Type.
Variable A : Arith T.

(** [Vectors.norm(v, 2)]: the squares are accumulated left to right, then
    the square root is taken. *)
Definition norm (v : list T) : T :=
  a_root A (fold_left (fun s x => a_add A s (a_mul A x x)) v (a_zero A)).

(** [transform]: every entry is divided by the norm unless the norm is zero,
    in which case the vector is returned as it is. *)
Definition transform_row (v : list T) : list T :=
  let n := norm v in
  if a_eqb A n (a_zero A) then v else map (fun x => a_div A x n) v.

(** A division that faults ([None]) on a zero divisor, and the same
    transformation written with it: [None] would be a division by zero. *)
Definition checked_div (x n : T) : option T :=
  if a_eqb A n (a_zero A) then None else Some (a_div A x n).

Fixpoint checked_scale (n : T) (v : list T) : option (list T) :=
  match v with
  | [] => Some []
  | x :: v' =>
      match checked_div x n, checked_scale n v' with
      | Some y, Some w => Some (y :: w)
      | _, _ => None
      end
  end.

Definition transform_row_checked (v : list T) : option (list T) :=
  let n := norm v in
  if a_eqb A n (a_zero A) then Some v else checked_scale n v.

Definition transform (df : list (nat * list T)) : list (nat * list T) :=
  map (fun r => (fst r, transform_row (snd r))) df.

End Over.
End Normalizer.

(** ** IndexedRowMatrix, its product with its transpose, and the local array *)

Module Matrix.
Section Over.
Variable T : Type.
Variable A : Arith T.

(** [numRows]: one more than the largest row index. *)
Definition numRows (rows : list (nat * list T)) : nat :=
  fold_right (fun r n => Nat.max (S (fst r)) n) 0%nat rows.

(** [numCols]: the size of the first row's vector. *)
Definition numCols (rows : list (nat * list T)) : nat :=
  match rows with
  | [] => 0%nat
  | r :: _ => length (snd r)
  end.

(** The vector stored at row index [i]; an index without a row is a row of
    zeros.  Row indices are assumed distinct (with a repeated index the
    first row is read). *)
Definition row (rows : list (nat * list T)) (i : nat) : list T :=
  match find (fun r => fst r =? i) rows with
  | Some r => snd r
  | None => repeat (a_zero A) (numCols rows)
  end.

(** The inner product, accumulated left to right from zero. *)
Definition dot (a b : list T) : T :=
  fold_left (fun s p => a_add A s (a_mul A (fst p) (snd p))) (combine a b) (a_zero A).

(** [mat.multiply(mat.transpose()).toLocalMatrix().toArray()]. *)
Definition multiply_transpose (rows : list (nat * list T)) : list (list T) :=
  let n := numRows rows in
  map (fun i => map (fun j => dot (row rows i) (row rows j)) (seq 0 n))
      (seq 0 n).

(** [m[i][j]]; [None] stands for numpy's [IndexError]. *)
Definition entry (m : list (list T)) (i j : nat) : option T :=
  match nth_error m i with
  | Some r => nth_error r j
  | None => None
  end.

End Over.
End Matrix.

(** ** Ranking: [row.argsort()[::-1][:k]] *)

Module Ranker.
Section Over.
Variable T : Type.
Variable A : Arith T.

(** Insertion of index [i] into a list of indices kept in ascending order
    of their entries in [row]; [i] goes after the indices whose entry is
    not larger. *)
Fixpoint insert (row : list T) (i : nat) (sorted : list nat) : list nat :=
  match sorted with
  | [] => [i]
  | j :: rest =>
      if a_leb A (nth j row (a_zero A)) (nth i row (a_zero A))
      then j :: insert row i rest
      else i :: j :: rest
  end.

(** The entry at index [i] is not larger than the entry at index [j]. *)
Definition le_at (row : list T) (i j : nat) : Prop :=
  a_leb A (nth i row (a_zero A)) (nth j row (a_zero A)) = true.

(** [argsort]: the indices of [row] in ascending order of their entries.
    numpy does not fix the order of equal entries for its default sort kind;
    this model keeps them in index order. *)
Definition argsort (row : list T) : list nat :=
  fold_left (fun acc i => insert row i acc) (seq 0 (length row)) [].

(** [row.argsort()[::-1][:k]] for [k >= 0]. *)
Definition topk (row : list T) (k : nat) : list nat :=
  firstn k (rev (argsort row)).

(** [m[q].argsort()[::-1][:k]]; [None] stands for numpy's [IndexError]. *)
Definition similar (m : list (list T)) (q k : nat) : option (list nat) :=
  option_map (fun r => topk r k) (nth_error m q).

End Over.
End Ranker.

(** ** The classifier *)

Module CosinusSimilarityClassifier.

(** The four attributes set by [__init__]; [None] is Python's [None].  The
    normalizer object carries only its parameter [p]. *)
Record t : Type := mk {
  normalizer : option nat;
  cosine_similarity : option (list (list R));
  count_vectorizer : option (list token);
  idfModel : option (list R)
}.

Definition init : t :=
  {| normalizer := None;
     cosine_similarity := None;
     count_vectorizer := None;
     idfModel := None |}.

(** The weighted vectors [idf_df] computed inside [_fit_tf_idf]: the
    vectorizer is fitted on the argument [df] and applied to the
    module-level [tokens_df], which is passed here explicitly. *)
Definition idf_frame (tokens_df df : DataFrame) : list (nat * list R) :=
  let voc := CountVectorizer.fit df in
  let tf_df := CountVectorizer.transform voc tokens_df in
  IDF.transform (IDF.fit (length voc) (map snd tf_df)) tf_df.

Definition _fit_tf_idf (tokens_df : DataFrame) (self : t) (df : DataFrame)
  : t * list (nat * list R) :=
  let voc := CountVectorizer.fit df in
  let tf_df := CountVectorizer.transform voc tokens_df in
  let idf := IDF.fit (length voc) (map snd tf_df) in
  let idf_df := IDF.transform idf tf_df in
  ({| normalizer := Some 2%nat;
      cosine_similarity := cosine_similarity self;
      count_vectorizer := Some voc;
      idfModel := Some idf |},
   Normalizer.transform exact idf_df).

Definition _fit_matrix_similarity (self : t) (df : list (nat * list R)) : t :=
  {| normalizer := normalizer self;
     cosine_similarity := Some (Matrix.multiply_transpose exact df);
     count_vectorizer := count_vectorizer self;
     idfModel := idfModel self |}.

Definition fit (tokens_df : DataFrame) (self : t) (df : DataFrame) : t :=
  let (self', normed) := _fit_tf_idf tokens_df self df in
  _fit_matrix_similarity self' normed.

End CosinusSimilarityClassifier.

(** The two stages between the weighted vectors and the similarity array,
    over either arithmetic. *)
Definition similarity_of_weights (T : Type) (A : Arith T)
  (weights : list (nat * list T)) : list (list T) :=
  Matrix.multiply_transpose A (Normalizer.transform A weights).

(** ** Session side: [get_dummies] *)

Module Sessions.

Record Session : Type := mkSession {
  date : string;
  ip : string;
  entry_point : string;
  rates : string;
  end_point : string;
  personality : string
}.

(** Python's [s.split(' ')]: cut at every single space; empty pieces are
    kept. *)
Fixpoint split (sep : ascii) (s : string) : list string :=
  match s with
  | EmptyString => [EmptyString]
  | String c s' =>
      if Ascii.eqb c sep then EmptyString :: split sep s'
      else match split sep s' with
           | w :: ws => String c w :: ws
           | [] => [String c EmptyString]
           end
  end.

(** [sep in s]. *)
Fixpoint contains (sep : ascii) (s : string) : bool :=
  match s with
  | EmptyString => false
  | String c s' => Ascii.eqb c sep || contains sep s'
  end.

(** The set of labels found by splitting the distinct values of the
    column. *)
Definition col_attributes (df : list Session) : list string :=
  nodup string_dec
    (flat_map (split " ") (nodup string_dec (map personality df))).

(** [F.when(F.col(col_name) == ty, 1).otherwise(0)]. *)
Definition indicator (value ty : string) : nat :=
  if String.eqb value ty then 1 else 0.

(** Every row, followed by one named indicator column per label. *)
Definition get_dummies (df : list Session)
  : list (Session * list (string * nat)) :=
  map (fun r =>
         (r, map (fun ty => (ty, indicator (personality r) ty))
               (col_attributes df)))
      df.

End Sessions.

(** ** Python strings, lists and dictionaries

    Strings are sequences of code points below 256.  [s.split(sep)] is
    [Sessions.split]. *)

Module Py.

Definition tab : ascii := "009"%char.

(** [sep.join(l)]. *)
Fixpoint join (sep : string) (l : list string) : string :=
  match l with
  | [] => EmptyString
  | x :: l' =>
      match l' with
      | [] => x
      | _ :: _ => x ++ sep ++ join sep l'
      end
  end.

(** [s.split(sep, n)]: at most [n] cuts, from the left. *)
Fixpoint splitn (sep : ascii) (n : nat) (s : string) {struct s} : list string :=
  match n with
  | 0 => [s]
  | S n' =>
      match s with
      | EmptyString => [EmptyString]
      | String c s' =>
          if Ascii.eqb c sep then EmptyString :: splitn sep n' s'
          else match splitn sep n s' with
               | w :: ws => String c w :: ws
               | [] => [String c EmptyString]
               end
      end
  end.

(** [s.count(sep)] for a one-character [sep]. *)
Fixpoint count (sep : ascii) (s : string) : nat :=
  match s with
  | EmptyString => 0
  | String c s' => (if Ascii.eqb c sep then 1 else 0) + count sep s'
  end.

(** [str.isalpha] on one character: the letters among the code points below
    256. *)
Definition isalpha (c : ascii) : bool :=
  let n := nat_of_ascii c in
  ((65 <=? n) && (n <=? 90)) || ((97 <=? n) && (n <=? 122))
  || (n =? 170) || (n =? 181) || (n =? 186)
  || ((192 <=? n) && (n <=? 214)) || ((216 <=? n) && (n <=? 246))
  || (248 <=? n).

(** A dictionary with string keys and values, in insertion order. *)
Definition dict := list (string * string).

(** [d.get(k)]; [None] is Python's [None]. *)
Fixpoint get (d : dict) (k : string) : option string :=
  match d with
  | [] => None
  | (k', v) :: d' => if String.eqb k' k then Some v else get d' k
  end.

(** [d[k] = v]: an existing key keeps its place and takes the new value, a
    new key goes last. *)
Fixpoint set (d : dict) (k v : string) : dict :=
  match d with
  | [] => [(k, v)]
  | (k', v') :: d' =>
      if String.eqb k' k then (k, v) :: d' else (k', v') :: set d' k v
  end.

End Py.

(** ** Loading the files *)

Module Loader.

(** A row of the restaurant frame. *)
Record Restaurant : Type := mkRestaurant {
  id : string;
  name : string;
  description : string;
  price : string
}.

(** The two [map] steps of [transform_restaurants_data] on one line of the
    file; [None] stands for the [IndexError] of [column[2]] (or of
    [column[1]]). *)
Definition restaurant_of_line (line : string) : option Restaurant :=
  let column := Sessions.split Py.tab line in
  match nth_error column 0, nth_error column 1, nth_error column 2 with
  | Some c0, Some c1, Some c2 =>
      Some (mkRestaurant c0 c1
              (Py.join " " (removelast (Sessions.split " " c2)))
              (last (Sessions.split " " c2) EmptyString))
  | _, _, _ => None
  end.

(** Every line is converted; the first failing line fails the job. *)
Fixpoint restaurants_of_lines (lines : list string)
  : option (list Restaurant) :=
  match lines with
  | [] => Some []
  | line :: rest =>
      match restaurant_of_line line, restaurants_of_lines rest with
      | Some r, Some rs => Some (r :: rs)
      | _, _ => None
      end
  end.

(** [transform_restaurants_data]: [toDF] reads the first row to find the
    types of the columns and raises [ValueError] ([None]) on a file without
    lines. *)
Definition transform_restaurants_data (lines : list string)
  : option (list Restaurant) :=
  match lines with
  | [] => None
  | _ :: _ => restaurants_of_lines lines
  end.

(** A row of the session frame. *)
Record SessionLine : Type := mkSessionLine {
  date : string;
  ip : string;
  entry_point : string;
  rates : string;
  end_point : string
}.

(** The two [map] steps of [transform_session_data] on one line; [None]
    stands for the [IndexError] of [features[3]] (or of an earlier index). *)
Definition session_of_line (line : string) : option SessionLine :=
  let features := Py.splitn Py.tab 3 line in
  match nth_error features 0, nth_error features 1,
        nth_error features 2, nth_error features 3 with
  | Some f0, Some f1, Some f2, Some f3 =>
      Some (mkSessionLine f0 f1 f2
              (Py.join " " (removelast (Sessions.split Py.tab f3)))
              (last (Sessions.split Py.tab f3) EmptyString))
  | _, _, _, _ => None
  end.

Fixpoint sessions_of_lines (lines : list string)
  : option (list SessionLine) :=
  match lines with
  | [] => Some []
  | line :: rest =>
      match session_of_line line, sessions_of_lines rest with
      | Some r, Some rs => Some (r :: rs)
      | _, _ => None
      end
  end.

(** [transform_session_data]: as for the restaurants, [toDF] raises
    [ValueError] ([None]) on a file without lines. *)
Definition transform_session_data (lines : list string)
  : option (list SessionLine) :=
  match lines with
  | [] => None
  | _ :: _ => sessions_of_lines lines
  end.

(** One step of [dict(...)]: the line, cut at its tabs, must give exactly a
    key and a value; [None] stands for the [ValueError] raised otherwise. *)
Definition add_line (acc : option Py.dict) (line : string) : option Py.dict :=
  match acc with
  | None => None
  | Some d =>
      match Sessions.split Py.tab line with
      | [k; v] => Some (Py.set d k v)
      | _ => None
      end
  end.

(** [dict(lines.map(lambda line: line.split('\t')).collect())]: a later line
    replaces the value of an earlier one with the same key. *)
Definition tokens_to_words (lines : list string) : option Py.dict :=
  fold_left add_line lines (Some []).

(** [[tokens_to_words[token].split(' ') for token in row.tokens]]; [None]
    stands for the [KeyError] of a token that is not a key. *)
Fixpoint phrases (d : Py.dict) (row_tokens : list string)
  : option (list (list string)) :=
  match row_tokens with
  | [] => Some []
  | t :: ts =>
      match Py.get d t, phrases d ts with
      | Some p, Some ps => Some (Sessions.split " " p :: ps)
      | _, _ => None
      end
  end.

(** The [tokens] column of [tokens_df] for one row: the phrases, flattened
    by [F.flatten]. *)
Definition flatten_phrases (d : Py.dict) (row_tokens : list string)
  : option (list token) :=
  option_map (@List.concat string) (phrases d row_tokens).

End Loader.

(** ** Personalities *)

Module Personalities.

Definition letters_to_personalities : Py.dict :=
  [("M", "spendthrift"); ("P", "traditional"); ("Q", "creative");
   ("R", "fun"); ("S", "quiet")]%string.

(** [''.join(filter(str.isalpha, rates))]. *)
Definition letters (rates : string) : string :=
  string_of_list_ascii (filter Py.isalpha (list_ascii_of_string rates)).

(** [[mapping.get(letter) for letter in letters if mapping.get(letter)]]: a
    value is kept when it is neither [None] nor the empty string. *)
Definition labels (mapping : Py.dict) (rates : string) : list string :=
  flat_map
    (fun letter =>
       match Py.get mapping (String letter EmptyString) with
       | Some EmptyString => []
       | Some v => [v]
       | None => []
       end)
    (list_ascii_of_string (letters rates)).

Section SetOrder.

(** The order in which Python iterates over [set(l)]: some arrangement of
    the distinct elements of [l], which the language does not fix. *)
Variable set_order : list string -> list string.

Definition get_personalities (rates : string) (mapping : Py.dict) : string :=
  Py.join " " (set_order (labels mapping rates)).

(** The frame [df]: every session row with its [personality]. *)
Definition with_personality (r : Loader.SessionLine) : Sessions.Session :=
  Sessions.mkSession (Loader.date r) (Loader.ip r) (Loader.entry_point r)
    (Loader.rates r) (Loader.end_point r)
    (get_personalities (Loader.rates r) letters_to_personalities).

(** The value of the column named [label] in a row of [get_dummies]. *)
Fixpoint column (cols : list (string * nat)) (label : string) : option nat :=
  match cols with
  | [] => None
  | (l, b) :: cols' => if String.eqb l label then Some b else column cols' label
  end.

(** [get_dummies(df, 'personality').select(columns)] with
    [columns = ['date', 'ip'] + list(letters_to_personalities.values()) +
    ['rates']]: the selection is resolved against the columns of the frame
    and fails ([None], Spark's [AnalysisException]) when a label is not the
    name of a column; otherwise every row keeps its date, ip, the five
    indicators and its rates. *)
Definition users_rates (df_session : list Loader.SessionLine)
  : option (list (string * string * list nat * string)) :=
  let df := map with_personality df_session in
  let wanted := map snd letters_to_personalities in
  if forallb (fun label => existsb (String.eqb label) (Sessions.col_attributes df))
       wanted
  then Some (map (fun rc : Sessions.Session * list (string * nat) =>
                    (Sessions.date (fst rc), Sessions.ip (fst rc),
                     map (fun label => match column (snd rc) label with
                                       | Some b => b
                                       | None => 0
                                       end) wanted,
                     Sessions.rates (fst rc)))
               (Sessions.get_dummies df))
  else None.

End SetOrder.
End Personalities.

(** ** Listing the neighbours of the first restaurant *)

Module Display.
Section Over.
Variable T : Type.
Variable A : Arith T.








End Over.
End Display.

(** ** The weighted vector of one row

    The entry of [idf_df] that [_fit_tf_idf] computes for the row [r] of
    [tokens_df], the vectorizer being fitted on [df]. *)

Definition row_weights (tokens_df df : DataFrame) (r : Row) : list R :=
  let voc := CountVectorizer.fit df in
  IDF.transform_row
    (IDF.fit (length voc)
       (map (fun r' => CountVectorizer.transform_row voc (tokens r')) tokens_df))
    (CountVectorizer.transform_row voc (tokens r)).

(** ** Sums used to state the properties of the exact instance *)

Definition sumsq (v : list R) : R :=
  fold_right (fun x s => (x * x + s)%R) 0%R v.

Definition sumprod (a b : list R) : R :=
  fold_right (fun p s => (fst p * snd p + s)%R) 0%R (combine a b).

(** ** Sample corpora *)

Definition one_restaurant : DataFrame :=
  [mkRow 0 ["Pizza"%string]].

Definition two_restaurants : DataFrame :=
  [mkRow 0 ["Italian"%string; "Pizza"%string]; mkRow 1 ["Curry"%string]].

Definition three_restaurants : DataFrame :=
  [mkRow 0 ["Italian"%string; "Pizza"%string];
   mkRow 1 ["Italian"%string; "Pizza"%string];
   mkRow 2 ["Curry"%string]].

(** The binary64 values of [ln(3/2)], [ln(4/3)] and [ln 2] nearest to the
    real ones, as [math.log] returns them. *)
Definition ln_3_2 : float := 0x1.9f323ecbf984cp-2%float.
Definition ln_4_3 : float := 0x1.269621134db91p-2%float.
Definition ln_2 : float := 0x1.62e42fefa39efp-1%float.

(** The weighted vectors of [two_restaurants] and of [three_restaurants] in
    binary64, given the inverse document frequency [w] of a term found in
    one row less than all, and [w'] of a term found in one row of three:
    the columns are [Italian], [Pizza], [Curry]. *)
Definition two_restaurants_weights64 (w : float) : list (nat * list float) :=
  [(0%nat, [w; w; 0%float]); (1%nat, [0%float; 0%float; w])].

Definition three_restaurants_weights64 (w w' : float) : list (nat * list float) :=
  [(0%nat, [w; w; 0%float]);
   (1%nat, [w; w; 0%float]);
   (2%nat, [0%float; 0%float; w'])].

(** Three sessions: one without a personality letter, one with the single
    label [creative], one with the two labels [creative] and [fun]. *)
Definition sample_sessions : list Sessions.Session :=
  [Sessions.mkSession "01/Oct/1996:11:32:00" "mail.smc.com" "0" "204L" "204" "";
   Sessions.mkSession "26/Sep/1996:21:18:00" "www-q5.proxy.aol.com" "0"
     "274Q 122Q" "122" "creative";
   Sessions.mkSession "27/Sep/1996:08:00:00" "proxy.hud.gov" "0"
     "274Q 122R" "122" "creative fun"]%string.

(** A similarity array of three items in which item [0] is equally similar
    to items [1] and [2]. *)
Definition tied_similarities : list (list R) :=
  [[1; / 2; / 2]; [/ 2; 1; 0]; [/ 2; 0; 1]]%R.

(** * Properties *)

(** ** Lists *)

Lemma nth_map_in (X Y : Type) (f : X -> Y) (l : list X) (n : nat) (d : X) (e : Y) :
  (n < length l)%nat -> nth n (map f l) e = f (nth n l d).
Proof.
  intros Hn. rewrite (nth_indep (map f l) e (f d)).
  - apply map_nth.
  - rewrite length_map. exact Hn.
Qed.

Lemma filter_length_le (X : Type) (p : X -> bool) (l : list X) :
  (length (filter p l) <= length l)%nat.
Proof.
  induction l as [|x l IH]; simpl; [lia|].
  destruct (p x); simpl; lia.
Qed.

Lemma combine_nth_in (X Y : Type) (l : list X) (l' : list Y) (n : nat) (x : X) (y : Y) :
  (n < length l)%nat -> (n < length l')%nat ->
  nth n (combine l l') (x, y) = (nth n l x, nth n l' y).
Proof.
  revert l' n. induction l as [|a l IH]; intros [|b l'] n H1 H2; simpl in *; try lia.
  destruct n as [|n]; [reflexivity|]. apply IH; lia.
Qed.

(** ** IDF *)

Lemma transform_row_length (voc doc : list token) :
  length (CountVectorizer.transform_row voc doc) = length voc.
Proof. unfold CountVectorizer.transform_row. apply length_map. Qed.

Lemma doc_freq_le (tfs : list (list nat)) (t : nat) :
  (IDF.doc_freq tfs t <= length tfs)%nat.
Proof. unfold IDF.doc_freq. apply filter_length_le. Qed.

Lemma idf_value_eq (m df : nat) :
  IDF.idf_value m df = ln ((INR m + 1) / (INR df + 1)).
Proof. unfold IDF.idf_value, IDF.minDocFreq. reflexivity. Qed.

Lemma idf_ratio_ge_1 (m df : nat) :
  (df <= m)%nat -> (1 <= (INR m + 1) / (INR df + 1))%R.
Proof.
  intros H. apply le_INR in H.
  pose proof (pos_INR df) as Hd.
  apply Rmult_le_reg_r with (INR df + 1)%R; [lra|].
  unfold Rdiv. rewrite Rmult_assoc, Rinv_l by lra. lra.
Qed.

Lemma idf_value_nonneg (m df : nat) :
  (df <= m)%nat -> (0 <= IDF.idf_value m df)%R.
Proof.
  intros H. rewrite idf_value_eq.
  destruct (idf_ratio_ge_1 H) as [Hlt | Heq].
  - left. rewrite <- ln_1. apply ln_increasing; lra.
  - rewrite <- Heq, ln_1. lra.
Qed.

Lemma idf_value_pos (m df : nat) :
  (df < m)%nat -> (0 < IDF.idf_value m df)%R.
Proof.
  intros H. rewrite idf_value_eq. apply lt_INR in H.
  pose proof (pos_INR df) as Hd.
  rewrite <- ln_1. apply ln_increasing; [lra|].
  apply Rmult_lt_reg_r with (INR df + 1)%R; [lra|].
  unfold Rdiv. rewrite Rmult_assoc, Rinv_l by lra. lra.
Qed.

Lemma idf_value_all_docs (m : nat) : IDF.idf_value m m = 0%R.
Proof.
  rewrite idf_value_eq. pose proof (pos_INR m) as Hm.
  unfold Rdiv. rewrite Rinv_r by lra. apply ln_1.
Qed.

Lemma idf_fit_nth (size : nat) (tfs : list (list nat)) (t : nat) :
  (t < size)%nat ->
  nth t (IDF.fit size tfs) 0%R
  = IDF.idf_value (length tfs) (IDF.doc_freq tfs t).
Proof.
  intros Ht. unfold IDF.fit.
  rewrite (nth_map_in _ (seq 0 size) 0%nat) by (rewrite length_seq; exact Ht).
  rewrite seq_nth by exact Ht. reflexivity.
Qed.

Lemma idf_fit_length (size : nat) (tfs : list (list nat)) :
  length (IDF.fit size tfs) = size.
Proof. unfold IDF.fit. rewrite length_map. apply length_seq. Qed.

Lemma idf_transform_row_nth (idf : list R) (tf : list nat) (t : nat) :
  (t < length tf)%nat -> (t < length idf)%nat ->
  nth t (IDF.transform_row idf tf) 0%R = (INR (nth t tf 0%nat) * nth t idf 0%R)%R.
Proof.
  intros H1 H2. unfold IDF.transform_row.
  rewrite (nth_map_in _ (combine tf idf) (0%nat, 0%R)).
  - rewrite combine_nth_in by assumption. reflexivity.
  - rewrite length_combine. lia.
Qed.

Lemma transform_frame_nth (voc : list token) (df : DataFrame) (i : nat) :
  (i < length df)%nat ->
  nth i (map snd (CountVectorizer.transform voc df)) []
  = CountVectorizer.transform_row voc (tokens (nth i df (mkRow 0 []))).
Proof.
  intros Hi. unfold CountVectorizer.transform. rewrite map_map. simpl.
  apply (nth_map_in (fun r => CountVectorizer.transform_row voc (tokens r))
           df (mkRow 0 []) [] Hi).
Qed.

Lemma idf_frame_nth (tokens_df df : DataFrame) (i : nat) :
  (i < length tokens_df)%nat ->
  let voc := CountVectorizer.fit df in
  let tfs := map snd (CountVectorizer.transform voc tokens_df) in
  nth i (CosinusSimilarityClassifier.idf_frame tokens_df df) (0%nat, [])
  = (id (nth i tokens_df (mkRow 0 [])),
     IDF.transform_row (IDF.fit (length voc) tfs) (nth i tfs [])).
Proof.
  intros Hi voc tfs.
  unfold CosinusSimilarityClassifier.idf_frame, IDF.transform.
  fold voc. fold tfs.
  rewrite (nth_map_in _ (CountVectorizer.transform voc tokens_df) (0%nat, []))
    by (unfold CountVectorizer.transform; rewrite length_map; exact Hi).
  f_equal.
  - unfold CountVectorizer.transform.
    rewrite (nth_map_in _ tokens_df (mkRow 0 [])) by exact Hi. reflexivity.
  - f_equal. unfold tfs.
    rewrite (nth_map_in snd (CountVectorizer.transform voc tokens_df) (0%nat, []))
      by (unfold CountVectorizer.transform; rewrite length_map; exact Hi).
    reflexivity.
Qed.

(** C1 (amended): for every vocabulary fitted on [df] and every corpus
    [tokens_df] of [N] rows, the weight of vocabulary index [t] in row [i] is
    [tf(i,t) * ln((N + 1) / (df(t) + 1))], where [tf(i,t)] counts the
    occurrences of term [t] in the tokens of row [i]; the inverse document
    frequency is never negative, is positive exactly when the term is missing
    from at least one row, and is zero for a term present in every row. *)
Theorem tf_idf_weight (tokens_df df : DataFrame) (i t : nat) :
  (i < length tokens_df)%nat ->
  (t < length (CountVectorizer.fit df))%nat ->
  let voc := CountVectorizer.fit df in
  let tfs := map snd (CountVectorizer.transform voc tokens_df) in
  let N := length tokens_df in
  let df_t := IDF.doc_freq tfs t in
  let idf_t := nth t (IDF.fit (length voc) tfs) 0%R in
  let tf_it := CountVectorizer.term_count
                 (tokens (nth i tokens_df (mkRow 0 []))) (nth t voc EmptyString) in
  nth t (snd (nth i (CosinusSimilarityClassifier.idf_frame tokens_df df) (0%nat, []))) 0%R
    = (INR tf_it * idf_t)%R
  /\ idf_t = ln ((INR N + 1) / (INR df_t + 1))
  /\ (df_t <= N)%nat
  /\ (0 <= idf_t)%R
  /\ ((df_t < N)%nat <-> (0 < idf_t)%R)
  /\ (df_t = N -> idf_t = 0%R).
Proof.
  intros Hi Ht voc tfs N df_t idf_t tf_it.
  assert (HN : length tfs = N).
  { unfold tfs, CountVectorizer.transform. now rewrite !length_map. }
  assert (Hidf : idf_t = IDF.idf_value N df_t).
  { unfold idf_t. rewrite idf_fit_nth by exact Ht. now rewrite HN. }
  assert (Hle : (df_t <= N)%nat).
  { unfold df_t. rewrite <- HN. apply doc_freq_le. }
  split; [|split; [|split; [|split; [|split]]]].
  - rewrite idf_frame_nth by exact Hi. cbn [snd]. fold voc. fold tfs.
    rewrite idf_transform_row_nth.
    + fold idf_t. f_equal. f_equal. unfold tfs.
      rewrite transform_frame_nth by exact Hi.
      unfold CountVectorizer.transform_row.
      rewrite (nth_map_in _ voc EmptyString) by exact Ht. reflexivity.
    + unfold tfs. rewrite transform_frame_nth by exact Hi.
      rewrite transform_row_length. exact Ht.
    + rewrite idf_fit_length. exact Ht.
  - rewrite Hidf. apply idf_value_eq.
  - exact Hle.
  - rewrite Hidf. apply idf_value_nonneg. exact Hle.
  - rewrite Hidf. split.
    + apply idf_value_pos.
    + intros Hpos. destruct (Nat.eq_dec df_t N) as [E|E]; [|lia].
      rewrite E, idf_value_all_docs in Hpos. lra.
  - intros E. rewrite Hidf, E. apply idf_value_all_docs.
Qed.

Lemma tf_idf_weight_witness :
  (0 < length two_restaurants)%nat
  /\ (0 < length (CountVectorizer.fit two_restaurants))%nat
  /\ nth 0 (IDF.fit (length (CountVectorizer.fit two_restaurants))
              (map snd (CountVectorizer.transform
                          (CountVectorizer.fit two_restaurants) two_restaurants)))
        0%R
      = ln ((INR (length two_restaurants) + 1)
            / (INR (IDF.doc_freq
                      (map snd (CountVectorizer.transform
                                  (CountVectorizer.fit two_restaurants)
                                  two_restaurants)) 0) + 1)).
Proof.
  assert (H1 : (0 < length two_restaurants)%nat) by (simpl; lia).
  assert (H2 : (0 < length (CountVectorizer.fit two_restaurants))%nat)
    by (vm_compute; lia).
  split; [exact H1|]. split; [exact H2|].
  exact (proj1 (proj2 (tf_idf_weight two_restaurants two_restaurants H1 H2))).
Defined.

Lemma one_restaurant_vocabulary :
  CountVectorizer.fit one_restaurant = ["Pizza"%string].
Proof. vm_compute. reflexivity. Qed.

Lemma one_restaurant_counts :
  CountVectorizer.transform ["Pizza"%string] one_restaurant = [(0%nat, [1%nat])].
Proof. vm_compute. reflexivity. Qed.

Lemma one_restaurant_weights :
  CosinusSimilarityClassifier.idf_frame one_restaurant one_restaurant
  = [(0%nat, [0%R])].
Proof.
  unfold CosinusSimilarityClassifier.idf_frame.
  rewrite one_restaurant_vocabulary, one_restaurant_counts.
  unfold IDF.transform, IDF.transform_row, IDF.fit. simpl.
  change (IDF.doc_freq [[1%nat]] 0) with 1%nat.
  rewrite idf_value_all_docs. do 3 f_equal. lra.
Qed.

(** C1 (as stated) fails on the corpus of one restaurant described by the one
    token [Pizza]: there [N = 1], [df = 1] and [tf = 1]; the code gives the
    weight [0] and the inverse document frequency [0], where the stated
    formula gives the weight [1] and promises a positive value. *)
Lemma idf_plus_one_refuted :
  let weights := CosinusSimilarityClassifier.idf_frame one_restaurant one_restaurant in
  let tfs := map snd (CountVectorizer.transform
                        (CountVectorizer.fit one_restaurant) one_restaurant) in
  let N := length one_restaurant in
  let tf := nth 0 (nth 0 tfs []) 0%nat in
  let df := IDF.doc_freq tfs 0 in
  (tf = 1 /\ df = 1 /\ N = 1)%nat
  /\ nth 0 (snd (nth 0 weights (0%nat, []))) 0%R
     <> (INR tf * (ln ((INR N + 1) / (INR df + 1)) + 1))%R
  /\ ~ (0 < nth 0 (IDF.fit 1 tfs) 0%R)%R.
Proof.
  cbv zeta. rewrite one_restaurant_weights, one_restaurant_vocabulary,
    one_restaurant_counts.
  cbn [map snd nth length one_restaurant].
  change (IDF.doc_freq [[1%nat]] 0) with 1%nat.
  split; [repeat split|]. split.
  - replace ((INR 1 + 1) / (INR 1 + 1))%R with 1%R by (simpl; lra).
    rewrite ln_1. simpl. lra.
  - unfold IDF.fit. cbn [seq map nth length].
    change (IDF.doc_freq [[1%nat]] 0) with 1%nat.
    rewrite idf_value_all_docs. lra.
Qed.

(** ** The similarity array, over any arithmetic *)

Section MatrixFacts.
Variable T : Type.
Variable A : Arith T.

Lemma multiply_transpose_length (rows : list (nat * list T)) :
  length (Matrix.multiply_transpose A rows) = Matrix.numRows rows.
Proof.
  unfold Matrix.multiply_transpose. rewrite length_map. apply length_seq.
Qed.

Lemma entry_in_range (rows : list (nat * list T)) (i j : nat) :
  (i < Matrix.numRows rows)%nat -> (j < Matrix.numRows rows)%nat ->
  Matrix.entry (Matrix.multiply_transpose A rows) i j
  = Some (Matrix.dot A (Matrix.row A rows i) (Matrix.row A rows j)).
Proof.
  intros Hi Hj. unfold Matrix.entry, Matrix.multiply_transpose.
  rewrite nth_error_map, nth_error_seq.
  destruct (Nat.ltb_spec i (Matrix.numRows rows)); [|lia]. cbn.
  rewrite nth_error_map, nth_error_seq.
  destruct (Nat.ltb_spec j (Matrix.numRows rows)); [|lia]. reflexivity.
Qed.

Lemma entry_out_of_range (rows : list (nat * list T)) (i j : nat) :
  (Matrix.numRows rows <= i)%nat \/ (Matrix.numRows rows <= j)%nat ->
  Matrix.entry (Matrix.multiply_transpose A rows) i j = None.
Proof.
  intros H. unfold Matrix.entry, Matrix.multiply_transpose.
  rewrite nth_error_map, nth_error_seq.
  destruct (Nat.ltb_spec i (Matrix.numRows rows)); cbn; [|reflexivity].
  rewrite nth_error_map, nth_error_seq.
  destruct (Nat.ltb_spec j (Matrix.numRows rows)); [lia|reflexivity].
Qed.

Lemma entry_some (rows : list (nat * list T)) (i j : nat) (x : T) :
  Matrix.entry (Matrix.multiply_transpose A rows) i j = Some x ->
  (i < Matrix.numRows rows)%nat /\ (j < Matrix.numRows rows)%nat
  /\ x = Matrix.dot A (Matrix.row A rows i) (Matrix.row A rows j).
Proof.
  intros H.
  destruct (Nat.lt_ge_cases i (Matrix.numRows rows)) as [Hi|Hi];
    [|rewrite entry_out_of_range in H by (left; exact Hi); discriminate].
  destruct (Nat.lt_ge_cases j (Matrix.numRows rows)) as [Hj|Hj];
    [|rewrite entry_out_of_range in H by (right; exact Hj); discriminate].
  rewrite entry_in_range in H by assumption. inversion H. auto.
Qed.

Lemma numRows_bound (rows : list (nat * list T)) (i : nat) (v : list T) :
  In (i, v) rows -> (i < Matrix.numRows rows)%nat.
Proof.
  induction rows as [|r rows IH]; [simpl; tauto|].
  change (Matrix.numRows (r :: rows))
    with (Nat.max (S (fst r)) (Matrix.numRows rows)).
  intros [E | H].
  - subst r. cbn [fst]. apply Nat.max_lt_iff. left. apply Nat.lt_succ_diag_r.
  - specialize (IH H). apply Nat.max_lt_iff. right. exact IH.
Qed.

Lemma numRows_transform (rows : list (nat * list T)) :
  Matrix.numRows (Normalizer.transform A rows) = Matrix.numRows rows.
Proof.
  induction rows as [|r rows IH]; [reflexivity|].
  change (Nat.max (S (fst r)) (Matrix.numRows (Normalizer.transform A rows))
          = Nat.max (S (fst r)) (Matrix.numRows rows)).
  now rewrite IH.
Qed.

Lemma find_transform (rows : list (nat * list T)) (i : nat) :
  find (fun r => fst r =? i) (Normalizer.transform A rows)
  = option_map (fun r => (fst r, Normalizer.transform_row A (snd r)))
      (find (fun r => fst r =? i) rows).
Proof.
  induction rows as [|r rows IH]; simpl; [reflexivity|].
  destruct (fst r =? i); [reflexivity|exact IH].
Qed.

Lemma find_unique (rows : list (nat * list T)) (i : nat) (v : list T) :
  NoDup (map fst rows) -> In (i, v) rows ->
  find (fun r => fst r =? i) rows = Some (i, v).
Proof.
  induction rows as [|r rows IH]; simpl; [tauto|].
  intros Hnd [E | H].
  - subst r. simpl. now rewrite Nat.eqb_refl.
  - inversion Hnd as [|? ? Hnotin Hnd']; subst.
    destruct (Nat.eqb_spec (fst r) i) as [E|E].
    + exfalso. apply Hnotin. rewrite E.
      change i with (fst (i, v)). now apply in_map.
    + now apply IH.
Qed.

End MatrixFacts.

(** ** Exact arithmetic: norms and inner products *)

Section ExactFacts.
Local Open Scope R_scope.

Lemma fold_left_sumsq (v : list R) (a : R) :
  fold_left (fun s x => s + x * x) v a = a + sumsq v.
Proof.
  revert a. induction v as [|x v IH]; intros a; simpl; [lra|].
  rewrite IH. lra.
Qed.

Lemma norm_exact (v : list R) : Normalizer.norm exact v = sqrt (sumsq v).
Proof.
  unfold Normalizer.norm. cbn [a_root a_add a_mul a_zero exact].
  rewrite fold_left_sumsq. f_equal. lra.
Qed.

Lemma sumsq_nonneg (v : list R) : 0 <= sumsq v.
Proof.
  induction v as [|x v IH]; simpl; [lra|]. nra.
Qed.

Lemma sumsq_zero (v : list R) : sumsq v = 0 -> Forall (fun x => x = 0) v.
Proof.
  induction v as [|x v IH]; simpl; intros H; constructor.
  - pose proof (sumsq_nonneg v). nra.
  - apply IH. pose proof (sumsq_nonneg v). nra.
Qed.

Lemma sumsq_all_zero (v : list R) : Forall (fun x => x = 0) v -> sumsq v = 0.
Proof.
  induction 1 as [|x v Hx _ IH]; simpl; [reflexivity|]. subst x. lra.
Qed.

Lemma sumsq_pos (v : list R) : Exists (fun x => 0 < x) v -> 0 < sumsq v.
Proof.
  induction 1 as [x v Hx | x v _ IH]; simpl.
  - pose proof (sumsq_nonneg v). nra.
  - nra.
Qed.

Lemma norm_zero_iff (v : list R) :
  Normalizer.norm exact v = 0 <-> sumsq v = 0.
Proof.
  rewrite norm_exact. split; intros H.
  - apply sqrt_eq_0; [apply sumsq_nonneg | exact H].
  - rewrite H. apply sqrt_0.
Qed.

Lemma transform_row_zero (v : list R) :
  sumsq v = 0 -> Normalizer.transform_row exact v = v.
Proof.
  intros H. unfold Normalizer.transform_row. cbn [a_eqb a_zero exact].
  destruct (Req_dec_T (Normalizer.norm exact v) 0) as [_|N]; [reflexivity|].
  exfalso. apply N. now apply norm_zero_iff.
Qed.

Lemma transform_row_scaled (v : list R) :
  sumsq v <> 0 ->
  Normalizer.transform_row exact v = map (fun x => x / sqrt (sumsq v)) v.
Proof.
  intros H. unfold Normalizer.transform_row. cbn [a_eqb a_zero a_div exact].
  destruct (Req_dec_T (Normalizer.norm exact v) 0) as [E|_].
  - exfalso. apply H. now apply norm_zero_iff.
  - rewrite norm_exact. reflexivity.
Qed.

Lemma sumsq_scale (v : list R) (c : R) :
  c <> 0 -> sumsq (map (fun x => x / c) v) = sumsq v / (c * c).
Proof.
  intros Hc. induction v as [|x v IH]; simpl.
  - unfold Rdiv. lra.
  - rewrite IH. field. exact Hc.
Qed.

Lemma sumsq_transform_row_unit (v : list R) :
  sumsq v <> 0 -> sumsq (Normalizer.transform_row exact v) = 1.
Proof.
  intros H. rewrite transform_row_scaled by exact H.
  pose proof (sumsq_nonneg v) as Hge.
  assert (Hs : sqrt (sumsq v) <> 0).
  { intros E. apply H. apply sqrt_eq_0; assumption. }
  rewrite sumsq_scale by exact Hs.
  rewrite sqrt_sqrt by exact Hge. field. exact H.
Qed.

Lemma sumsq_transform_row_le_1 (v : list R) :
  0 <= sumsq (Normalizer.transform_row exact v) <= 1.
Proof.
  destruct (Req_dec_T (sumsq v) 0) as [E|N].
  - rewrite transform_row_zero by exact E. rewrite E. lra.
  - rewrite sumsq_transform_row_unit by exact N. lra.
Qed.

Lemma transform_row_nonneg (v : list R) :
  Forall (fun x => 0 <= x) v ->
  Forall (fun x => 0 <= x) (Normalizer.transform_row exact v).
Proof.
  intros Hv. destruct (Req_dec_T (sumsq v) 0) as [E|N].
  - now rewrite transform_row_zero.
  - rewrite transform_row_scaled by exact N.
    assert (Hs : 0 < sqrt (sumsq v)).
    { apply sqrt_lt_R0. pose proof (sumsq_nonneg v). lra. }
    generalize dependent (sqrt (sumsq v)). intros c Hc. clear N.
    induction Hv as [|x v Hx _ IH]; simpl; constructor.
    + apply Rmult_le_pos; [exact Hx|]. left. now apply Rinv_0_lt_compat.
    + exact IH.
Qed.

Lemma fold_left_sumprod (l : list (R * R)) (a : R) :
  fold_left (fun s p => s + fst p * snd p) l a
  = a + fold_right (fun p s => fst p * snd p + s) 0 l.
Proof.
  revert a. induction l as [|p l IH]; intros a; simpl; [lra|].
  rewrite IH. lra.
Qed.

Lemma dot_exact (a b : list R) : Matrix.dot exact a b = sumprod a b.
Proof.
  unfold Matrix.dot, sumprod. cbn [a_add a_mul a_zero exact].
  rewrite fold_left_sumprod. lra.
Qed.

Lemma sumprod_self (a : list R) : sumprod a a = sumsq a.
Proof.
  unfold sumprod. induction a as [|x a IH]; simpl; [reflexivity|].
  now rewrite IH.
Qed.

Lemma sumprod_bound (a b : list R) :
  - (sumsq a + sumsq b) <= 2 * sumprod a b <= sumsq a + sumsq b.
Proof.
  unfold sumprod. revert b. induction a as [|x a IH]; intros [|y b]; simpl.
  - lra.
  - pose proof (sumsq_nonneg b). nra.
  - pose proof (sumsq_nonneg a). nra.
  - specialize (IH b).
    pose proof (Rle_0_sqr (x - y)) as H1. pose proof (Rle_0_sqr (x + y)) as H2.
    unfold Rsqr in H1, H2.
    set (P := fold_right (fun p s => fst p * snd p + s) 0 (combine a b)) in *.
    lra.
Qed.

Lemma sumprod_nonneg (a b : list R) :
  Forall (fun x => 0 <= x) a -> Forall (fun x => 0 <= x) b ->
  0 <= sumprod a b.
Proof.
  unfold sumprod. intros Ha. revert b.
  induction Ha as [|x a Hx _ IH]; intros b Hb; simpl; [lra|].
  destruct Hb as [|y b Hy Hb]; simpl; [lra|].
  specialize (IH b Hb). nra.
Qed.

End ExactFacts.

(** ** Rows of the normalised frame *)

Section RowFacts.
Local Open Scope R_scope.

Lemma sumsq_repeat_zero (n : nat) : sumsq (repeat 0 n) = 0.
Proof. induction n as [|n IH]; simpl; [reflexivity|]. rewrite IH. lra. Qed.

Lemma transform_row_length_exact (v : list R) :
  length (Normalizer.transform_row exact v) = length v.
Proof.
  destruct (Req_dec_T (sumsq v) 0) as [E|N].
  - now rewrite transform_row_zero.
  - rewrite transform_row_scaled by exact N. apply length_map.
Qed.

Lemma row_transform_exact (weights : list (nat * list R)) (i : nat) :
  Matrix.row exact (Normalizer.transform exact weights) i
  = Normalizer.transform_row exact (Matrix.row exact weights i).
Proof.
  unfold Matrix.row. rewrite find_transform.
  destruct (find (fun r => (fst r =? i)%nat) weights) as [r|]; cbn; [reflexivity|].
  rewrite transform_row_zero by apply sumsq_repeat_zero.
  f_equal. destruct weights as [|r weights]; cbn; [reflexivity|].
  apply transform_row_length_exact.
Qed.

Lemma row_of_item (weights : list (nat * list R)) (i : nat) (w : list R) :
  NoDup (map fst weights) -> In (i, w) weights ->
  Matrix.row exact weights i = w.
Proof.
  intros Hnd Hin. unfold Matrix.row.
  now rewrite (find_unique weights i w Hnd Hin).
Qed.

Lemma similarity_entry (weights : list (nat * list R)) (i j : nat) (x : R) :
  Matrix.entry (similarity_of_weights exact weights) i j = Some x ->
  x = sumprod (Normalizer.transform_row exact (Matrix.row exact weights i))
              (Normalizer.transform_row exact (Matrix.row exact weights j)).
Proof.
  unfold similarity_of_weights. intros H.
  apply entry_some in H. destruct H as (_ & _ & ->).
  now rewrite dot_exact, !row_transform_exact.
Qed.

Lemma similarity_diagonal (weights : list (nat * list R)) (i : nat) :
  (i < Matrix.numRows weights)%nat ->
  Matrix.entry (similarity_of_weights exact weights) i i
  = Some (sumsq (Normalizer.transform_row exact (Matrix.row exact weights i))).
Proof.
  intros Hi. unfold similarity_of_weights.
  rewrite entry_in_range by (rewrite numRows_transform; exact Hi).
  now rewrite dot_exact, sumprod_self, row_transform_exact.
Qed.

End RowFacts.

(** ** The classifier's array *)

Lemma fit_cosine_similarity (tokens_df df : DataFrame)
  (self : CosinusSimilarityClassifier.t) :
  CosinusSimilarityClassifier.cosine_similarity
    (CosinusSimilarityClassifier.fit tokens_df self df)
  = Some (similarity_of_weights exact
            (CosinusSimilarityClassifier.idf_frame tokens_df df)).
Proof. reflexivity. Qed.

Lemma idf_fit_nonneg (size : nat) (tfs : list (list nat)) :
  Forall (fun x => (0 <= x)%R) (IDF.fit size tfs).
Proof.
  unfold IDF.fit. apply Forall_map, Forall_forall. intros t _.
  apply idf_value_nonneg, doc_freq_le.
Qed.

Lemma idf_transform_row_nonneg (idf : list R) (tf : list nat) :
  Forall (fun x => (0 <= x)%R) idf ->
  Forall (fun x => (0 <= x)%R) (IDF.transform_row idf tf).
Proof.
  intros Hidf. unfold IDF.transform_row. revert tf.
  induction Hidf as [|w idf Hw _ IH]; intros [|c tf]; simpl; constructor.
  - cbn. apply Rmult_le_pos; [apply pos_INR | exact Hw].
  - apply IH.
Qed.

Lemma idf_frame_nonneg (tokens_df df : DataFrame) :
  Forall (fun r => Forall (fun x => (0 <= x)%R) (snd r))
    (CosinusSimilarityClassifier.idf_frame tokens_df df).
Proof.
  unfold CosinusSimilarityClassifier.idf_frame, IDF.transform.
  apply Forall_map, Forall_forall. intros r _. cbn [snd].
  apply idf_transform_row_nonneg, idf_fit_nonneg.
Qed.

Lemma row_nonneg (weights : list (nat * list R)) (i : nat) :
  Forall (fun r => Forall (fun x => (0 <= x)%R) (snd r)) weights ->
  Forall (fun x => (0 <= x)%R) (Matrix.row exact weights i).
Proof.
  intros H. unfold Matrix.row.
  destruct (find (fun r => fst r =? i) weights) as [r|] eqn:E.
  - apply find_some in E. destruct E as [Hin _].
    rewrite Forall_forall in H. now apply H.
  - cbn. apply Forall_forall. intros x Hx. apply repeat_spec in Hx. subst x.
    apply Rle_refl.
Qed.

(** ** Self-similarity *)

(** C4 (amended): in exact arithmetic the diagonal entry of item [i] is [1]
    when its weight vector has an entry greater than [0], it is [0] when the
    weight vector is all zero, and no other value occurs. *)
Theorem diagonal_exact (weights : list (nat * list R)) (i : nat) (w : list R) :
  NoDup (map fst weights) -> In (i, w) weights ->
  (Exists (fun x => (0 < x)%R) w ->
   Matrix.entry (similarity_of_weights exact weights) i i = Some 1%R)
  /\ (Forall (fun x => x = 0%R) w ->
      Matrix.entry (similarity_of_weights exact weights) i i = Some 0%R)
  /\ (exists x, Matrix.entry (similarity_of_weights exact weights) i i = Some x
                /\ (x = 0%R \/ x = 1%R)).
Proof.
  intros Hnd Hin.
  pose proof (numRows_bound _ _ _ Hin) as Hi.
  rewrite (similarity_diagonal _ Hi), (@row_of_item weights i w Hnd Hin).
  split; [|split].
  - intros Hex. apply sumsq_pos in Hex.
    rewrite sumsq_transform_row_unit; [reflexivity|lra].
  - intros Hall. apply sumsq_all_zero in Hall.
    rewrite transform_row_zero by exact Hall. now rewrite Hall.
  - eexists. split; [reflexivity|].
    destruct (Req_dec_T (sumsq w) 0) as [E|N].
    + left. rewrite transform_row_zero by exact E. exact E.
    + right. now apply sumsq_transform_row_unit.
Qed.

Lemma diagonal_exact_witness :
  NoDup (map fst [(0%nat, [1%R; 0%R])])
  /\ In (0%nat, [1%R; 0%R]) [(0%nat, [1%R; 0%R])]
  /\ Matrix.entry (similarity_of_weights exact [(0%nat, [1%R; 0%R])]) 0 0
     = Some 1%R.
Proof.
  assert (H1 : NoDup (map fst [(0%nat, [1%R; 0%R])])).
  { simpl. constructor; [simpl; tauto | constructor]. }
  assert (H2 : In (0%nat, [1%R; 0%R]) [(0%nat, [1%R; 0%R])]).
  { simpl. left. reflexivity. }
  split; [exact H1|]. split; [exact H2|].
  apply (proj1 (@diagonal_exact _ _ _ H1 H2)).
  apply Exists_cons_hd. lra.
Defined.

(** ** Symmetry *)

Section Symmetry.
Variable T : Type.
Variable A : Arith T.
Hypothesis mul_comm : forall x y : T, a_mul A x y = a_mul A y x.

Lemma fold_dot_comm (a b : list T) (s : T) :
  fold_left (fun s p => a_add A s (a_mul A (fst p) (snd p))) (combine a b) s
  = fold_left (fun s p => a_add A s (a_mul A (fst p) (snd p))) (combine b a) s.
Proof.
  revert b s. induction a as [|x a IH]; intros [|y b] s; simpl; try reflexivity.
  rewrite (mul_comm x y). apply IH.
Qed.

Lemma dot_comm (a b : list T) : Matrix.dot A a b = Matrix.dot A b a.
Proof. unfold Matrix.dot. apply fold_dot_comm. Qed.

Lemma multiply_transpose_symmetric (rows : list (nat * list T)) (i j : nat) :
  Matrix.entry (Matrix.multiply_transpose A rows) i j
  = Matrix.entry (Matrix.multiply_transpose A rows) j i.
Proof.
  destruct (Nat.lt_ge_cases i (Matrix.numRows rows)) as [Hi|Hi].
  - destruct (Nat.lt_ge_cases j (Matrix.numRows rows)) as [Hj|Hj].
    + rewrite !entry_in_range by assumption. f_equal. apply dot_comm.
    + rewrite !entry_out_of_range; auto.
  - rewrite !entry_out_of_range; auto.
Qed.

End Symmetry.

(** Binary64 multiplication commutes. *)
Lemma SFmul_comm (prec emax : Z) (x y : spec_float) :
  SFmul prec emax x y = SFmul prec emax y x.
Proof.
  destruct x as [sx|sx| |sx mx ex], y as [sy|sy| |sy my ey]; simpl;
    try reflexivity; try (now rewrite xorb_comm).
  now rewrite xorb_comm, Pos.mul_comm, Z.add_comm.
Qed.

Lemma binary64_mul_comm (x y : float) : PrimFloat.mul x y = PrimFloat.mul y x.
Proof.
  rewrite <- (SF2Prim_Prim2SF (PrimFloat.mul x y)).
  rewrite <- (SF2Prim_Prim2SF (PrimFloat.mul y x)).
  rewrite !mul_spec. unfold SF64mul. now rewrite SFmul_comm.
Qed.

(** C5: the similarity array is symmetric, [sim(i,j) = sim(j,i)] for every
    pair of indices (both lookups fail together outside the array).  This
    holds for the array of the classifier, for the array computed in
    binary64 from any weights, and more generally for the product of a row
    matrix with its transpose over any arithmetic whose multiplication
    commutes. *)
Theorem similarity_symmetric :
  (forall (tokens_df df : DataFrame) (m : list (list R)) (i j : nat),
     CosinusSimilarityClassifier.cosine_similarity
       (CosinusSimilarityClassifier.fit tokens_df
          CosinusSimilarityClassifier.init df) = Some m ->
     Matrix.entry m i j = Matrix.entry m j i)
  /\ (forall (weights : list (nat * list float)) (i j : nat),
        Matrix.entry (similarity_of_weights binary64 weights) i j
        = Matrix.entry (similarity_of_weights binary64 weights) j i)
  /\ (forall (T : Type) (A : Arith T),
        (forall x y : T, a_mul A x y = a_mul A y x) ->
        forall (weights : list (nat * list T)) (i j : nat),
          Matrix.entry (similarity_of_weights A weights) i j
          = Matrix.entry (similarity_of_weights A weights) j i).
Proof.
  split; [|split].
  - intros tokens_df df m i j H. rewrite fit_cosine_similarity in H.
    inversion H; subst m. unfold similarity_of_weights.
    apply multiply_transpose_symmetric. intros x y. apply Rmult_comm.
  - intros weights i j. unfold similarity_of_weights.
    apply multiply_transpose_symmetric. exact binary64_mul_comm.
  - intros T A Hc weights i j. unfold similarity_of_weights.
    now apply multiply_transpose_symmetric.
Qed.

Lemma similarity_symmetric_witness :
  CosinusSimilarityClassifier.cosine_similarity
    (CosinusSimilarityClassifier.fit two_restaurants
       CosinusSimilarityClassifier.init two_restaurants)
  = Some (similarity_of_weights exact
            (CosinusSimilarityClassifier.idf_frame two_restaurants two_restaurants))
  /\ Matrix.entry (similarity_of_weights exact
                     (CosinusSimilarityClassifier.idf_frame
                        two_restaurants two_restaurants)) 0 1
     = Matrix.entry (similarity_of_weights exact
                       (CosinusSimilarityClassifier.idf_frame
                          two_restaurants two_restaurants)) 1 0.
Proof.
  split; [reflexivity|].
  exact (proj1 similarity_symmetric two_restaurants two_restaurants _ 0%nat 1%nat
           eq_refl).
Defined.

(** ** Range *)

Lemma unit_weights_entry :
  Matrix.entry (similarity_of_weights exact [(0%nat, [1%R; 0%R])]) 0 0
  = Some 1%R.
Proof.
  rewrite similarity_diagonal by (cbn; lia).
  f_equal. apply sumsq_transform_row_unit. cbn. lra.
Qed.

(** C6 (amended): in exact arithmetic every entry of the similarity array
    lies in [[-1, 1]] whatever the weights, and every entry of the
    classifier's array, whose weights are non-negative, lies in [[0, 1]]. *)
Theorem similarity_range_exact :
  (forall (weights : list (nat * list R)) (i j : nat) (x : R),
     Matrix.entry (similarity_of_weights exact weights) i j = Some x ->
     (-1 <= x <= 1)%R)
  /\ (forall (tokens_df df : DataFrame) (m : list (list R)) (i j : nat) (x : R),
        CosinusSimilarityClassifier.cosine_similarity
          (CosinusSimilarityClassifier.fit tokens_df
             CosinusSimilarityClassifier.init df) = Some m ->
        Matrix.entry m i j = Some x ->
        (0 <= x <= 1)%R).
Proof.
  assert (Hgen : forall (weights : list (nat * list R)) (i j : nat) (x : R),
             Matrix.entry (similarity_of_weights exact weights) i j = Some x ->
             (-1 <= x <= 1)%R).
  { intros weights i j x H. apply similarity_entry in H. subst x.
    set (a := Normalizer.transform_row exact (Matrix.row exact weights i)).
    set (b := Normalizer.transform_row exact (Matrix.row exact weights j)).
    pose proof (sumprod_bound a b) as Hb.
    pose proof (sumsq_transform_row_le_1 (Matrix.row exact weights i)) as Ha.
    pose proof (sumsq_transform_row_le_1 (Matrix.row exact weights j)) as Hb'.
    fold a in Ha. fold b in Hb'. lra. }
  split; [exact Hgen|].
  intros tokens_df df m i j x Hm Hx. rewrite fit_cosine_similarity in Hm.
  inversion Hm; subst m. split; [|apply (Hgen _ _ _ _ Hx)].
  apply similarity_entry in Hx. subst x.
  apply sumprod_nonneg; apply transform_row_nonneg, row_nonneg, idf_frame_nonneg.
Qed.

Lemma similarity_range_exact_witness :
  Matrix.entry (similarity_of_weights exact [(0%nat, [1%R; 0%R])]) 0 0 = Some 1%R
  /\ (-1 <= 1 <= 1)%R.
Proof.
  split; [exact unit_weights_entry|].
  exact (proj1 similarity_range_exact _ _ _ _ unit_weights_entry).
Defined.

(** ** The zero vector *)

Section NoFault.
Variable T : Type.
Variable A : Arith T.

Lemma checked_scale_total (n : T) (v : list T) :
  a_eqb A n (a_zero A) = false ->
  Normalizer.checked_scale A n v = Some (map (fun x => a_div A x n) v).
Proof.
  intros Hn. induction v as [|x v IH]; simpl; [reflexivity|].
  unfold Normalizer.checked_div. rewrite Hn, IH. reflexivity.
Qed.

Lemma transform_row_checked_total (v : list T) :
  Normalizer.transform_row_checked A v = Some (Normalizer.transform_row A v).
Proof.
  unfold Normalizer.transform_row_checked, Normalizer.transform_row.
  destruct (a_eqb A (Normalizer.norm A v) (a_zero A)) eqn:E; [reflexivity|].
  now apply checked_scale_total.
Qed.

Lemma transform_row_zero_norm (v : list T) :
  a_eqb A (Normalizer.norm A v) (a_zero A) = true ->
  Normalizer.transform_row A v = v.
Proof.
  intros E. unfold Normalizer.transform_row. now rewrite E.
Qed.

End NoFault.

Lemma norm_binary64_zeros (n : nat) :
  Normalizer.norm binary64 (repeat 0%float n) = 0%float.
Proof.
  unfold Normalizer.norm. cbn [a_root a_add a_mul a_zero binary64].
  assert (H : fold_left (fun s x : float => PrimFloat.add s (PrimFloat.mul x x))
                (repeat 0%float n) 0%float = 0%float).
  { induction n as [|n IH]; [reflexivity|].
    cbn [repeat fold_left].
    change (PrimFloat.add 0 (PrimFloat.mul 0 0)) with 0%float. exact IH. }
  rewrite H. reflexivity.
Qed.

(** C7: a weight vector whose L2 norm is zero is all zero and the
    normaliser returns it unchanged; the transformation written with a
    faulting division never faults, in either arithmetic, so the division is
    never reached with a zero norm.  The binary64 normaliser returns the
    all-zero vector of any length unchanged as well. *)
Theorem normalizer_zero_vector :
  (forall v : list R,
     Normalizer.norm exact v = 0%R ->
     Forall (fun x => x = 0%R) v
     /\ Normalizer.transform_row exact v = v
     /\ Normalizer.transform_row exact v = repeat 0%R (length v)
     /\ Normalizer.transform_row_checked exact v = Some v)
  /\ (forall n : nat,
        Normalizer.transform_row binary64 (repeat 0%float n) = repeat 0%float n
        /\ Normalizer.transform_row_checked binary64 (repeat 0%float n)
           = Some (repeat 0%float n))
  /\ (forall (T : Type) (A : Arith T) (v : list T),
        Normalizer.transform_row_checked A v
        = Some (Normalizer.transform_row A v)).
Proof.
  split; [|split].
  - intros v Hn. apply norm_zero_iff in Hn.
    pose proof (sumsq_zero v Hn) as Hall.
    pose proof (transform_row_zero v Hn) as Hid.
    split; [exact Hall|]. split; [exact Hid|]. split.
    + rewrite Hid. clear Hn Hid.
      induction Hall as [|x v Hx _ IH]; simpl; [reflexivity|].
      now rewrite Hx, <- IH.
    + now rewrite transform_row_checked_total, Hid.
  - intros n.
    assert (H : Normalizer.transform_row binary64 (repeat 0%float n)
                = repeat 0%float n).
    { apply transform_row_zero_norm. rewrite norm_binary64_zeros. reflexivity. }
    split; [exact H|]. now rewrite transform_row_checked_total, H.
  - intros T A v. apply transform_row_checked_total.
Qed.

Lemma normalizer_zero_vector_witness :
  Normalizer.norm exact [0%R; 0%R] = 0%R
  /\ Normalizer.transform_row exact [0%R; 0%R] = [0%R; 0%R].
Proof.
  assert (H : Normalizer.norm exact [0%R; 0%R] = 0%R).
  { apply norm_zero_iff. cbn. lra. }
  split; [exact H|].
  exact (proj1 (proj2 (proj1 normalizer_zero_vector _ H))).
Defined.

(** ** The sample corpora, weighted *)

Lemma two_restaurants_vocabulary :
  CountVectorizer.fit two_restaurants
  = ["Italian"%string; "Pizza"%string; "Curry"%string].
Proof. vm_compute. reflexivity. Qed.

Lemma two_restaurants_counts :
  CountVectorizer.transform
    ["Italian"%string; "Pizza"%string; "Curry"%string] two_restaurants
  = [(0%nat, [1%nat; 1%nat; 0%nat]); (1%nat, [0%nat; 0%nat; 1%nat])].
Proof. vm_compute. reflexivity. Qed.

Lemma two_restaurants_weights :
  CosinusSimilarityClassifier.idf_frame two_restaurants two_restaurants
  = [(0%nat, [ln (3 / 2); ln (3 / 2); 0%R]);
     (1%nat, [0%R; 0%R; ln (3 / 2)])].
Proof.
  unfold CosinusSimilarityClassifier.idf_frame.
  rewrite two_restaurants_vocabulary, two_restaurants_counts.
  unfold IDF.transform, IDF.transform_row, IDF.fit.
  cbn [map seq length combine fst snd].
  change (IDF.doc_freq [[1; 1; 0]; [0; 0; 1]] 0)%nat with 1%nat.
  change (IDF.doc_freq [[1; 1; 0]; [0; 0; 1]] 1)%nat with 1%nat.
  change (IDF.doc_freq [[1; 1; 0]; [0; 0; 1]] 2)%nat with 1%nat.
  rewrite idf_value_eq.
  replace ((INR 2 + 1) / (INR 1 + 1))%R with (3 / 2)%R by (simpl; lra).
  repeat (f_equal; try (simpl; lra)).
Qed.

Lemma three_restaurants_vocabulary :
  CountVectorizer.fit three_restaurants
  = ["Italian"%string; "Pizza"%string; "Curry"%string].
Proof. vm_compute. reflexivity. Qed.

Lemma three_restaurants_counts :
  CountVectorizer.transform
    ["Italian"%string; "Pizza"%string; "Curry"%string] three_restaurants
  = [(0%nat, [1%nat; 1%nat; 0%nat]); (1%nat, [1%nat; 1%nat; 0%nat]);
     (2%nat, [0%nat; 0%nat; 1%nat])].
Proof. vm_compute. reflexivity. Qed.

Lemma three_restaurants_weights :
  CosinusSimilarityClassifier.idf_frame three_restaurants three_restaurants
  = [(0%nat, [ln (4 / 3); ln (4 / 3); 0%R]);
     (1%nat, [ln (4 / 3); ln (4 / 3); 0%R]);
     (2%nat, [0%R; 0%R; ln 2])].
Proof.
  unfold CosinusSimilarityClassifier.idf_frame.
  rewrite three_restaurants_vocabulary, three_restaurants_counts.
  unfold IDF.transform, IDF.transform_row, IDF.fit.
  cbn [map seq length combine fst snd].
  change (IDF.doc_freq [[1; 1; 0]; [1; 1; 0]; [0; 0; 1]] 0)%nat with 2%nat.
  change (IDF.doc_freq [[1; 1; 0]; [1; 1; 0]; [0; 0; 1]] 1)%nat with 2%nat.
  change (IDF.doc_freq [[1; 1; 0]; [1; 1; 0]; [0; 0; 1]] 2)%nat with 1%nat.
  rewrite !idf_value_eq.
  replace ((INR 3 + 1) / (INR 2 + 1))%R with (4 / 3)%R by (simpl; lra).
  replace ((INR 3 + 1) / (INR 1 + 1))%R with 2%R by (simpl; lra).
  repeat (f_equal; try (simpl; lra)).
Qed.

(** ** Binary64 runs *)

Lemma binary64_above_one_neq_one : 0x1.0000000000001p+0%float <> 1%float.
Proof.
  intros H. apply (f_equal (fun x => PrimFloat.eqb x 1%float)) in H.
  vm_compute in H. discriminate.
Qed.

Lemma binary64_below_one_neq_one : 0x1.ffffffffffffep-1%float <> 1%float.
Proof.
  intros H. apply (f_equal (fun x => PrimFloat.eqb x 1%float)) in H.
  vm_compute in H. discriminate.
Qed.

(** C4 (as stated) fails in the arithmetic the code runs in: with the
    binary64 weights of [two_restaurants], item [0] has two weights greater
    than [0] and its diagonal entry is [1.0000000000000002], not [1].  With a
    logarithm one unit in the last place lower or higher the entry is
    [0.9999999999999998], again not [1]. *)
Lemma diagonal_binary64_refuted :
  Exists (fun x => PrimFloat.ltb 0%float x = true) [ln_3_2; ln_3_2; 0%float]
  /\ Matrix.entry
       (similarity_of_weights binary64 (two_restaurants_weights64 ln_3_2)) 0 0
     = Some 0x1.0000000000001p+0%float
  /\ Matrix.entry
       (similarity_of_weights binary64
          (two_restaurants_weights64 (PrimFloat.next_down ln_3_2))) 0 0
     = Some 0x1.ffffffffffffep-1%float
  /\ Matrix.entry
       (similarity_of_weights binary64
          (two_restaurants_weights64 (PrimFloat.next_up ln_3_2))) 0 0
     = Some 0x1.ffffffffffffep-1%float
  /\ 0x1.0000000000001p+0%float <> 1%float
  /\ 0x1.ffffffffffffep-1%float <> 1%float.
Proof.
  split; [|split; [|split; [|split; [|split]]]].
  - apply Exists_cons_hd. vm_compute. reflexivity.
  - vm_compute. reflexivity.
  - vm_compute. reflexivity.
  - vm_compute. reflexivity.
  - exact binary64_above_one_neq_one.
  - exact binary64_below_one_neq_one.
Qed.

(** C6 (as stated) fails in the arithmetic the code runs in: with the
    binary64 weights of [three_restaurants], the similarity of items [0] and
    [1] is [1.0000000000000002], which is greater than [1]; so it is with a
    logarithm one unit in the last place higher. *)
Lemma range_binary64_refuted :
  Matrix.entry
    (similarity_of_weights binary64 (three_restaurants_weights64 ln_4_3 ln_2)) 0 1
  = Some 0x1.0000000000001p+0%float
  /\ Matrix.entry
       (similarity_of_weights binary64
          (three_restaurants_weights64 (PrimFloat.next_up ln_4_3) ln_2)) 0 1
     = Some 0x1.0000000000001p+0%float
  /\ PrimFloat.ltb 1%float 0x1.0000000000001p+0%float = true
  /\ PrimFloat.leb 0x1.0000000000001p+0%float 1%float = false.
Proof.
  split; [|split; [|split]]; vm_compute; reflexivity.
Qed.

(** ** Ranking *)

Lemma StronglySorted_app_single (X : Type) (R : X -> X -> Prop) (l : list X) (x : X) :
  StronglySorted R l -> Forall (fun y => R y x) l -> StronglySorted R (l ++ [x]).
Proof.
  induction 1 as [|y l Hs IH Hy]; intros Hall; simpl.
  - constructor; constructor.
  - inversion Hall as [|? ? Hyx Hall']; subst.
    constructor; [now apply IH|].
    apply Forall_app. split; [exact Hy|]. constructor; [exact Hyx|constructor].
Qed.

Lemma StronglySorted_rev (X : Type) (R : X -> X -> Prop) (l : list X) :
  StronglySorted R l -> StronglySorted (fun x y => R y x) (rev l).
Proof.
  induction 1 as [|x l Hs IH Hx]; simpl; [constructor|].
  apply StronglySorted_app_single; [exact IH|].
  apply Forall_rev. exact Hx.
Qed.

Lemma In_firstn_of (X : Type) (k : nat) (l : list X) (y : X) :
  In y (firstn k l) -> In y l.
Proof.
  intros H. rewrite <- (firstn_skipn k l). apply in_or_app. now left.
Qed.

Lemma StronglySorted_firstn (X : Type) (R : X -> X -> Prop) (l : list X) (k : nat) :
  StronglySorted R l -> StronglySorted R (firstn k l).
Proof.
  intros Hs. revert k. induction Hs as [|x l Hs IH Hx]; intros [|k]; simpl;
    try constructor.
  - apply IH.
  - rewrite Forall_forall in *. intros y Hy. apply Hx.
    now apply (@In_firstn_of _ k l).
Qed.

Lemma StronglySorted_app_between (X : Type) (R : X -> X -> Prop) (l1 l2 : list X) :
  StronglySorted R (l1 ++ l2) ->
  forall a b, In a l1 -> In b l2 -> R a b.
Proof.
  induction l1 as [|x l1 IH]; simpl; intros Hs a b Ha Hb; [tauto|].
  inversion Hs as [|? ? Hs' Hx]; subst.
  destruct Ha as [-> | Ha].
  - rewrite Forall_forall in Hx. apply Hx. apply in_or_app. now right.
  - now apply IH.
Qed.

Section RankerFacts.
Variable T : Type.
Variable A : Arith T.
Hypothesis leb_total : forall x y : T, a_leb A x y = true \/ a_leb A y x = true.
Hypothesis leb_trans : forall x y z : T,
  a_leb A x y = true -> a_leb A y z = true -> a_leb A x z = true.
Variable row : list T.

Local Abbreviation le_idx := (Ranker.le_at A row).

Lemma insert_perm (i : nat) (l : list nat) :
  Permutation (Ranker.insert A row i l) (i :: l).
Proof.
  induction l as [|j l IH]; simpl; [apply Permutation_refl|].
  destruct (a_leb A (nth j row (a_zero A)) (nth i row (a_zero A))).
  - apply Permutation_trans with (j :: i :: l).
    + now apply perm_skip.
    + apply perm_swap.
  - apply Permutation_refl.
Qed.

Lemma fold_insert_perm (l acc : list nat) :
  Permutation (fold_left (fun acc i => Ranker.insert A row i acc) l acc)
              (acc ++ l).
Proof.
  revert acc. induction l as [|i l IH]; intros acc; simpl.
  - rewrite app_nil_r. apply Permutation_refl.
  - apply Permutation_trans with (Ranker.insert A row i acc ++ l); [apply IH|].
    apply Permutation_trans with ((i :: acc) ++ l).
    + apply Permutation_app_tail, insert_perm.
    + simpl. apply Permutation_middle.
Qed.

Lemma argsort_perm :
  Permutation (Ranker.argsort A row) (seq 0 (length row)).
Proof. unfold Ranker.argsort. apply (fold_insert_perm (seq 0 (length row)) []). Qed.

Lemma insert_sorted (i : nat) (l : list nat) :
  StronglySorted le_idx l -> StronglySorted le_idx (Ranker.insert A row i l).
Proof.
  induction 1 as [|j l Hs IH Hj]; simpl.
  - constructor; constructor.
  - destruct (a_leb A (nth j row (a_zero A)) (nth i row (a_zero A))) eqn:E.
    + constructor; [exact IH|].
      apply (Permutation_Forall (Permutation_sym (insert_perm i l))).
      constructor; assumption.
    + assert (Hij : le_idx i j).
      { destruct (leb_total (nth i row (a_zero A)) (nth j row (a_zero A)))
          as [H|H]; [exact H|congruence]. }
      constructor; [constructor; assumption|].
      constructor; [exact Hij|].
      rewrite Forall_forall in *. intros y Hy.
      apply leb_trans with (nth j row (a_zero A)); [exact Hij|now apply Hj].
Qed.

Lemma fold_insert_sorted (l acc : list nat) :
  StronglySorted le_idx acc ->
  StronglySorted le_idx (fold_left (fun acc i => Ranker.insert A row i acc) l acc).
Proof.
  revert acc. induction l as [|i l IH]; intros acc Hs; simpl; [exact Hs|].
  apply IH, insert_sorted, Hs.
Qed.

Lemma argsort_sorted : StronglySorted le_idx (Ranker.argsort A row).
Proof. apply fold_insert_sorted. constructor. Qed.

Lemma ranking_sorted :
  StronglySorted (fun i j => le_idx j i) (rev (Ranker.argsort A row)).
Proof. apply StronglySorted_rev, argsort_sorted. Qed.

Lemma ranking_perm :
  Permutation (rev (Ranker.argsort A row)) (seq 0 (length row)).
Proof.
  apply Permutation_trans with (Ranker.argsort A row).
  - apply Permutation_sym, Permutation_rev.
  - apply argsort_perm.
Qed.

Lemma topk_sorted (k : nat) :
  StronglySorted (fun i j => le_idx j i) (Ranker.topk A row k).
Proof. apply StronglySorted_firstn, ranking_sorted. Qed.

Lemma topk_length (k : nat) :
  length (Ranker.topk A row k) = Nat.min k (length row).
Proof.
  unfold Ranker.topk. rewrite length_firstn.
  now rewrite (Permutation_length ranking_perm), length_seq.
Qed.

Lemma topk_NoDup (k : nat) : NoDup (Ranker.topk A row k).
Proof.
  unfold Ranker.topk.
  assert (H : NoDup (rev (Ranker.argsort A row))).
  { apply (Permutation_NoDup (Permutation_sym ranking_perm)), seq_NoDup. }
  rewrite <- (firstn_skipn k) in H. now apply NoDup_app_remove_r in H.
Qed.

Lemma topk_in_range (k i : nat) :
  In i (Ranker.topk A row k) -> (i < length row)%nat.
Proof.
  intros H. apply In_firstn_of in H.
  apply (Permutation_in _ ranking_perm) in H. apply in_seq in H. lia.
Qed.

Lemma topk_highest (k i j : nat) :
  In i (Ranker.topk A row k) -> (j < length row)%nat ->
  ~ In j (Ranker.topk A row k) -> le_idx j i.
Proof.
  intros Hi Hj Hnot.
  assert (Hin : In j (rev (Ranker.argsort A row))).
  { apply (Permutation_in _ (Permutation_sym ranking_perm)), in_seq. lia. }
  rewrite <- (firstn_skipn k) in Hin. apply in_app_or in Hin.
  destruct Hin as [Hin|Hin]; [contradiction|].
  pose proof ranking_sorted as Hs. rewrite <- (firstn_skipn k) in Hs.
  eapply (@StronglySorted_app_between _ _ _ _ Hs); eassumption.
Qed.

Lemma topk_all (k : nat) :
  (length row <= k)%nat -> Ranker.topk A row k = rev (Ranker.argsort A row).
Proof.
  intros Hk. unfold Ranker.topk. apply firstn_all2.
  now rewrite (Permutation_length ranking_perm), length_seq.
Qed.

End RankerFacts.

(** *** The exact instance *)

Lemma exact_leb_iff (x y : R) : a_leb exact x y = true <-> (x <= y)%R.
Proof.
  cbn [a_leb exact]. destruct (Rle_dec x y); split; intros H;
    try reflexivity; try assumption; try discriminate; contradiction.
Qed.

Lemma exact_leb_total (x y : R) :
  a_leb exact x y = true \/ a_leb exact y x = true.
Proof.
  rewrite !exact_leb_iff. destruct (Rle_dec x y); [now left|right; lra].
Qed.

Lemma exact_leb_trans (x y z : R) :
  a_leb exact x y = true -> a_leb exact y z = true -> a_leb exact x z = true.
Proof. rewrite !exact_leb_iff. lra. Qed.

Lemma le_at_exact (row : list R) (i j : nat) :
  Ranker.le_at exact row i j <-> (nth i row 0 <= nth j row 0)%R.
Proof. unfold Ranker.le_at. apply exact_leb_iff. Qed.

Lemma descending_exact (row : list R) (l : list nat) :
  StronglySorted (fun i j => Ranker.le_at exact row j i) l ->
  StronglySorted (fun i j => (nth j row 0 <= nth i row 0)%R) l.
Proof.
  induction 1 as [|i l Hs IH Hi]; constructor; [exact IH|].
  rewrite Forall_forall in *. intros j Hj. apply le_at_exact. now apply Hi.
Qed.

(** C8 (amended): for a valid query [q], asking for [k = 0] neighbours
    returns the empty list, and asking for more neighbours than there are
    other items, that is for at least as many as the row of [q] has entries,
    returns every index of the row, each once: all the other items and [q]
    itself, ordered by descending similarity. *)
Theorem topk_boundaries (m : list (list R)) (q : nat) (row : list R) :
  nth_error m q = Some row ->
  Ranker.similar exact m q 0 = Some []
  /\ (forall k : nat, (length row <= k)%nat ->
      exists ids : list nat,
        Ranker.similar exact m q k = Some ids
        /\ Permutation ids (seq 0 (length row))
        /\ length ids = length row
        /\ StronglySorted (fun i j => (nth j row 0 <= nth i row 0)%R) ids
        /\ ((q < length row)%nat -> In q ids)
        /\ (forall j, (j < length row)%nat -> j <> q -> In j ids)).
Proof.
  intros Hq. unfold Ranker.similar. rewrite Hq. cbn [option_map].
  split; [reflexivity|].
  intros k Hk. eexists. split; [reflexivity|].
  rewrite (@topk_all _ exact row k Hk).
  pose proof (@ranking_perm _ exact row) as Hp.
  assert (Hall : forall j, (j < length row)%nat ->
                           In j (rev (Ranker.argsort exact row))).
  { intros j Hj. apply (Permutation_in _ (Permutation_sym Hp)), in_seq. lia. }
  split; [exact Hp|]. split; [|split; [|split]].
  - now rewrite (Permutation_length Hp), length_seq.
  - apply descending_exact.
    apply ranking_sorted; [apply exact_leb_total | apply exact_leb_trans].
  - apply Hall.
  - intros j Hj _. now apply Hall.
Qed.

Lemma topk_boundaries_witness :
  nth_error tied_similarities 0 = Some [1; / 2; / 2]%R
  /\ (length [1; / 2; / 2]%R <= 3)%nat
  /\ Ranker.similar exact tied_similarities 0 0 = Some []
  /\ exists ids : list nat,
       Ranker.similar exact tied_similarities 0 3 = Some ids
       /\ length ids = 3%nat
       /\ In 0%nat ids /\ In 1%nat ids /\ In 2%nat ids.
Proof.
  assert (H : nth_error tied_similarities 0 = Some [1; / 2; / 2]%R)
    by reflexivity.
  assert (Hk : (length [1; / 2; / 2]%R <= 3)%nat) by (simpl; lia).
  split; [exact H|]. split; [exact Hk|].
  destruct (@topk_boundaries tied_similarities 0%nat _ H) as [H0 Hbig].
  split; [exact H0|].
  destruct (Hbig 3%nat Hk) as (ids & Hids & _ & Hlen & _ & Hq & Hothers).
  exists ids. split; [exact Hids|]. split; [exact Hlen|].
  split; [apply Hq; simpl; lia|].
  split; apply Hothers; simpl; try lia; discriminate.
Defined.

Ltac decide_Rle :=
  repeat match goal with
         | |- context [Rle_dec ?a ?b] =>
             destruct (Rle_dec a b); [try (exfalso; lra) | try (exfalso; lra)];
             cbn [Ranker.insert fold_left rev app firstn nth a_leb a_zero exact]
         end.

(** C2 (as stated) fails: on the row [[1; 1/2; 1/2]] of item [0] the two
    best neighbours returned are [0; 2]: the queried item itself comes
    first, and of the two equally similar items the one with the larger
    identifier comes before the other. *)
Lemma topk_includes_query :
  Ranker.similar exact tied_similarities 0 2 = Some [0; 2]%nat
  /\ Ranker.similar exact tied_similarities 0 3 = Some [0; 2; 1]%nat
  /\ nth 1 (nth 0 tied_similarities []) 0%R = nth 2 (nth 0 tied_similarities []) 0%R.
Proof.
  unfold Ranker.similar, Ranker.topk, Ranker.argsort, tied_similarities.
  cbn [nth_error option_map length seq fold_left Ranker.insert nth a_leb a_zero exact].
  decide_Rle. repeat split.
Qed.

(** C8 (as stated) fails: item [1] of the three items has two candidates,
    items [0] and [2]; asked for four neighbours, more than there are
    candidates, the query returns three identifiers, the queried item itself
    first, and not the two candidates alone. *)
Lemma topk_all_includes_query :
  Ranker.similar exact tied_similarities 1 4 = Some [1; 0; 2]%nat
  /\ In 1%nat [1; 0; 2]%nat
  /\ Ranker.similar exact tied_similarities 1 4 <> Some [0; 2]%nat.
Proof.
  assert (H : Ranker.similar exact tied_similarities 1 4 = Some [1; 0; 2]%nat).
  { unfold Ranker.similar, Ranker.topk, Ranker.argsort, tied_similarities.
    cbn [nth_error option_map length seq fold_left Ranker.insert nth a_leb
           a_zero exact].
    decide_Rle. reflexivity. }
  split; [exact H|]. split; [left; reflexivity|].
  rewrite H. discriminate.
Qed.

(** C2 (amended): for a valid query [q] and any [k >= 0] the query returns
    [min k N] distinct indices of the row of [q], ordered by descending
    similarity, and no index left out is more similar than one returned.
    The queried item is not excluded: when [k >= 1] and its self-similarity
    is larger than every other entry of its row, it is returned first. *)
Theorem topk_ranking (m : list (list R)) (q k : nat) (row : list R) :
  nth_error m q = Some row ->
  exists ids : list nat,
    Ranker.similar exact m q k = Some ids
    /\ length ids = Nat.min k (length row)
    /\ NoDup ids
    /\ (forall i, In i ids -> (i < length row)%nat)
    /\ StronglySorted (fun i j => (nth j row 0 <= nth i row 0)%R) ids
    /\ (forall i j, In i ids -> (j < length row)%nat -> ~ In j ids ->
                    (nth j row 0 <= nth i row 0)%R)
    /\ ((1 <= k)%nat -> (q < length row)%nat ->
        (forall j, (j < length row)%nat -> j <> q ->
                   (nth j row 0 < nth q row 0)%R) ->
        hd_error ids = Some q).
Proof.
  intros Hq. unfold Ranker.similar. rewrite Hq. cbn [option_map].
  eexists. split; [reflexivity|].
  assert (Hlen : length (Ranker.topk exact row k) = Nat.min k (length row))
    by apply topk_length.
  assert (Hrange : forall i, In i (Ranker.topk exact row k) -> (i < length row)%nat)
    by (intros i; apply topk_in_range).
  assert (Hsorted : StronglySorted (fun i j => (nth j row 0 <= nth i row 0)%R)
                      (Ranker.topk exact row k)).
  { apply descending_exact.
    apply topk_sorted; [apply exact_leb_total | apply exact_leb_trans]. }
  assert (Hbest : forall i j, In i (Ranker.topk exact row k) ->
                    (j < length row)%nat -> ~ In j (Ranker.topk exact row k) ->
                    (nth j row 0 <= nth i row 0)%R).
  { intros i j Hi Hj Hn. apply le_at_exact.
    eapply topk_highest; eauto using exact_leb_total, exact_leb_trans. }
  split; [exact Hlen|]. split; [apply topk_NoDup|].
  split; [exact Hrange|]. split; [exact Hsorted|]. split; [exact Hbest|].
  intros Hk Hqr Hmax.
  destruct (Ranker.topk exact row k) as [|h t] eqn:E.
  - simpl in Hlen. lia.
  - simpl. f_equal. destruct (Nat.eq_dec h q) as [|Hne]; [assumption|].
    exfalso.
    assert (Hh : (nth h row 0 < nth q row 0)%R).
    { apply Hmax; [apply Hrange; now left | exact Hne]. }
    assert (Hle : (nth q row 0 <= nth h row 0)%R).
    { destruct (in_dec Nat.eq_dec q (h :: t)) as [Hin|Hnin].
      - destruct Hin as [Heq|Hin]; [congruence|].
        inversion Hsorted as [|? ? _ Hall]; subst.
        rewrite Forall_forall in Hall. now apply Hall.
      - apply Hbest; [now left | exact Hqr | exact Hnin]. }
    lra.
Qed.

Lemma topk_ranking_witness :
  nth_error tied_similarities 0 = Some [1; / 2; / 2]%R
  /\ exists ids : list nat,
       Ranker.similar exact tied_similarities 0 2 = Some ids
       /\ length ids = 2%nat.
Proof.
  assert (H : nth_error tied_similarities 0 = Some [1; / 2; / 2]%R)
    by reflexivity.
  split; [exact H|].
  destruct (@topk_ranking tied_similarities 0%nat 2%nat _ H) as (ids & H1 & H2 & _).
  exists ids. split; [exact H1 | exact H2].
Defined.

(** ** The classifier reads the global frame *)

Lemma idf_frame_ids (tokens_df df : DataFrame) :
  map fst (CosinusSimilarityClassifier.idf_frame tokens_df df) = map id tokens_df.
Proof.
  unfold CosinusSimilarityClassifier.idf_frame, IDF.transform,
    CountVectorizer.transform.
  rewrite !map_map. reflexivity.
Qed.

Lemma idf_frame_row (tokens_df df : DataFrame) (r : Row) :
  In r tokens_df ->
  let voc := CountVectorizer.fit df in
  let idf := IDF.fit (length voc)
               (map (fun r => CountVectorizer.transform_row voc (tokens r))
                    tokens_df) in
  In (id r, IDF.transform_row idf (CountVectorizer.transform_row voc (tokens r)))
     (CosinusSimilarityClassifier.idf_frame tokens_df df).
Proof.
  intros Hin voc idf.
  unfold CosinusSimilarityClassifier.idf_frame, IDF.transform,
    CountVectorizer.transform.
  fold voc. rewrite !map_map. cbn [fst snd]. fold idf.
  apply (in_map (fun x => (id x, IDF.transform_row idf
                                   (CountVectorizer.transform_row voc (tokens x))))
           tokens_df r Hin).
Qed.

Lemma numRows_ids (T : Type) (rows : list (nat * list T)) :
  Matrix.numRows rows = fold_right (fun i n => Nat.max (S i) n) 0%nat (map fst rows).
Proof.
  induction rows as [|r rows IH]; [reflexivity|].
  change (Nat.max (S (fst r)) (Matrix.numRows rows)
          = Nat.max (S (fst r))
              (fold_right (fun i n => Nat.max (S i) n) 0%nat (map fst rows))).
  now rewrite IH.
Qed.

(** C3: [fit] applies the vectorizer fitted on its argument [df] to the
    module-level [tokens_df].  The array has one row and column per
    identifier of [tokens_df]; the entry of two rows of [tokens_df] is the
    inner product of their normalised weighted count vectors, the counts
    being taken over the tokens of those rows of [tokens_df]; and the
    argument [df] matters only through the vocabulary fitted on it. *)
Theorem fit_reads_global_tokens_df (tokens_df df : DataFrame)
  (self : CosinusSimilarityClassifier.t) :
  exists m : list (list R),
    CosinusSimilarityClassifier.cosine_similarity
      (CosinusSimilarityClassifier.fit tokens_df self df) = Some m
    /\ length m
       = fold_right (fun i n => Nat.max (S i) n) 0%nat (map id tokens_df)
    /\ (NoDup (map id tokens_df) ->
        forall r1 r2 : Row, In r1 tokens_df -> In r2 tokens_df ->
          let voc := CountVectorizer.fit df in
          let idf := IDF.fit (length voc)
                       (map (fun r => CountVectorizer.transform_row voc (tokens r))
                            tokens_df) in
          let vec := fun r : Row =>
                       Normalizer.transform_row exact
                         (IDF.transform_row idf
                            (CountVectorizer.transform_row voc (tokens r))) in
          Matrix.entry m (id r1) (id r2) = Some (Matrix.dot exact (vec r1) (vec r2)))
    /\ (forall df' : DataFrame,
          CountVectorizer.fit df' = CountVectorizer.fit df ->
          CosinusSimilarityClassifier.cosine_similarity
            (CosinusSimilarityClassifier.fit tokens_df self df') = Some m).
Proof.
  eexists. split; [apply fit_cosine_similarity|]. split; [|split].
  - unfold similarity_of_weights.
    rewrite multiply_transpose_length, numRows_transform, numRows_ids.
    now rewrite idf_frame_ids.
  - intros Hnd r1 r2 H1 H2 voc idf vec.
    pose proof (idf_frame_row tokens_df df r1 H1) as F1.
    pose proof (idf_frame_row tokens_df df r2 H2) as F2.
    cbv zeta in F1, F2. fold voc in F1, F2. fold idf in F1, F2.
    assert (Hnd' : NoDup (map fst (CosinusSimilarityClassifier.idf_frame tokens_df df)))
      by now rewrite idf_frame_ids.
    unfold similarity_of_weights.
    rewrite entry_in_range
      by (rewrite numRows_transform; eapply numRows_bound; eassumption).
    rewrite !row_transform_exact.
    rewrite (@row_of_item _ _ _ Hnd' F1), (@row_of_item _ _ _ Hnd' F2).
    reflexivity.
  - intros df' Hvoc. rewrite fit_cosine_similarity. f_equal. f_equal.
    unfold CosinusSimilarityClassifier.idf_frame. now rewrite Hvoc.
Qed.

Lemma fit_reads_global_tokens_df_witness :
  CountVectorizer.fit three_restaurants = CountVectorizer.fit two_restaurants
  /\ exists m : list (list R),
       CosinusSimilarityClassifier.cosine_similarity
         (CosinusSimilarityClassifier.fit two_restaurants
            CosinusSimilarityClassifier.init two_restaurants) = Some m
       /\ length m = 2%nat
       /\ CosinusSimilarityClassifier.cosine_similarity
            (CosinusSimilarityClassifier.fit two_restaurants
               CosinusSimilarityClassifier.init three_restaurants) = Some m.
Proof.
  assert (Hvoc : CountVectorizer.fit three_restaurants
                 = CountVectorizer.fit two_restaurants)
    by (vm_compute; reflexivity).
  split; [exact Hvoc|].
  destruct (fit_reads_global_tokens_df two_restaurants two_restaurants
              CosinusSimilarityClassifier.init) as (m & H1 & H2 & _ & H4).
  exists m. split; [exact H1|]. split; [exact H2|].
  apply H4. exact Hvoc.
Defined.

(** ** get_dummies *)

Lemma split_pieces_without_sep (sep : ascii) (s : string) :
  Forall (fun w => Sessions.contains sep w = false) (Sessions.split sep s).
Proof.
  induction s as [|c s IH]; simpl.
  - constructor; [reflexivity|constructor].
  - destruct (Ascii.eqb c sep) eqn:E.
    + constructor; [reflexivity|exact IH].
    + destruct (Sessions.split sep s) as [|w ws]; [now repeat constructor; simpl; rewrite E|].
      inversion IH as [|? ? Hw Hws]; subst.
      constructor; [|exact Hws]. simpl. now rewrite E, Hw.
Qed.

Lemma split_without_sep (sep : ascii) (s : string) :
  Sessions.contains sep s = false -> Sessions.split sep s = [s].
Proof.
  induction s as [|c s IH]; simpl; [reflexivity|].
  intros H. apply orb_false_iff in H. destruct H as [Hc Hs].
  rewrite Hc, (IH Hs). reflexivity.
Qed.

Lemma several_pieces_contain_sep (sep : ascii) (s : string) :
  (2 <= length (Sessions.split sep s))%nat -> Sessions.contains sep s = true.
Proof.
  intros H. destruct (Sessions.contains sep s) eqn:E; [reflexivity|].
  rewrite (split_without_sep _ _ E) in H. simpl in H. lia.
Qed.

Lemma col_attributes_without_space (df : list Sessions.Session) (ty : string) :
  In ty (Sessions.col_attributes df) -> Sessions.contains " " ty = false.
Proof.
  unfold Sessions.col_attributes. intros H.
  apply nodup_In in H. apply in_flat_map in H. destruct H as (p & _ & Hp).
  pose proof (split_pieces_without_sep " " p) as Hall.
  rewrite Forall_forall in Hall. now apply Hall.
Qed.

Lemma indicator_one_iff (value ty : string) :
  Sessions.indicator value ty = 1%nat <-> value = ty.
Proof.
  unfold Sessions.indicator. destruct (String.eqb_spec value ty); split;
    intros H; try reflexivity; try assumption; try discriminate; contradiction.
Qed.

Lemma indicator_binary (value ty : string) :
  Sessions.indicator value ty = 0%nat \/ Sessions.indicator value ty = 1%nat.
Proof. unfold Sessions.indicator. destruct (String.eqb value ty); auto. Qed.

(** C10: every indicator column of [get_dummies] compares the whole
    [personality] string with one label.  The columns are the labels found by
    splitting; a column is [1] exactly when the string is that label and is
    [0] otherwise; so for a row whose string splits into two or more
    labels every column is [0]. *)
Theorem get_dummies_whole_string (df : list Sessions.Session)
  (r : Sessions.Session) (cols : list (string * nat)) :
  In (r, cols) (Sessions.get_dummies df) ->
  map fst cols = Sessions.col_attributes df
  /\ (forall ty b, In (ty, b) cols ->
        (b = 1%nat <-> Sessions.personality r = ty) /\ (b = 0%nat \/ b = 1%nat))
  /\ ((2 <= length (Sessions.split " " (Sessions.personality r)))%nat ->
      forall ty b, In (ty, b) cols -> b = 0%nat).
Proof.
  unfold Sessions.get_dummies. intros H. apply in_map_iff in H.
  destruct H as (r' & Heq & _). inversion Heq; subst r' cols. clear Heq.
  split; [|split].
  - rewrite map_map. cbn [fst]. apply map_id.
  - intros ty b Hin. apply in_map_iff in Hin. destruct Hin as (ty' & E & _).
    inversion E; subst. split; [apply indicator_one_iff|apply indicator_binary].
  - intros Hmany ty b Hin. apply in_map_iff in Hin.
    destruct Hin as (ty' & E & Hty). inversion E; subst.
    destruct (indicator_binary (Sessions.personality r) ty) as [H0|H1];
      [exact H0|].
    exfalso. apply indicator_one_iff in H1.
    apply col_attributes_without_space in Hty.
    apply several_pieces_contain_sep in Hmany.
    rewrite H1 in Hmany. congruence.
Qed.

Lemma get_dummies_whole_string_witness :
  let r := Sessions.mkSession "27/Sep/1996:08:00:00" "proxy.hud.gov" "0"
             "274Q 122R" "122" "creative fun" in
  let cols := [(""%string, 0%nat); ("creative"%string, 0%nat); ("fun"%string, 0%nat)] in
  In (r, cols) (Sessions.get_dummies sample_sessions)
  /\ (2 <= length (Sessions.split " " (Sessions.personality r)))%nat
  /\ forall ty b, In (ty, b) cols -> b = 0%nat.
Proof.
  intros r cols.
  assert (Hin : In (r, cols) (Sessions.get_dummies sample_sessions)).
  { vm_compute. right. right. left. reflexivity. }
  assert (Hmany : (2 <= length (Sessions.split " " (Sessions.personality r)))%nat).
  { vm_compute. lia. }
  split; [exact Hin|]. split; [exact Hmany|].
  exact (proj2 (proj2 (@get_dummies_whole_string sample_sessions r cols Hin)) Hmany).
Defined.

(** ** Sample runs *)

Example split_two_labels :
  Sessions.split " " "creative fun" = ["creative"; "fun"]%string.
Proof. reflexivity. Qed.

Example split_empty_string : Sessions.split " " "" = [""%string].
Proof. reflexivity. Qed.

Example sample_col_attributes :
  Sessions.col_attributes sample_sessions = [""; "creative"; "fun"]%string.
Proof. vm_compute. reflexivity. Qed.

Example sample_get_dummies :
  map snd (Sessions.get_dummies sample_sessions)
  = [[("", 1); ("creative", 0); ("fun", 0)];
     [("", 0); ("creative", 1); ("fun", 0)];
     [("", 0); ("creative", 0); ("fun", 0)]]%string%nat.
Proof. vm_compute. reflexivity. Qed.

Example binary64_ranking :
  Ranker.topk binary64 [1; 0.5; 0.5]%float 2 = [0; 2]%nat.
Proof. vm_compute. reflexivity. Qed.

Example binary64_similarity_two_restaurants :
  similarity_of_weights binary64 (two_restaurants_weights64 ln_3_2)
  = [[0x1.0000000000001p+0; 0]; [0; 1]]%float.
Proof. vm_compute. reflexivity. Qed.

(** * Further properties *)

Unset Implicit Arguments.

(** ** Python's split and join *)

Lemma split_not_nil (sep : ascii) (s : string) : Sessions.split sep s <> [].
Proof.
  destruct s as [|c s]; simpl; [discriminate|].
  destruct (Ascii.eqb c sep); [discriminate|].
  destruct (Sessions.split sep s); discriminate.
Qed.

Lemma contains_app (sep : ascii) (a b : string) :
  Sessions.contains sep (a ++ b)
  = Sessions.contains sep a || Sessions.contains sep b.
Proof.
  induction a as [|c a IH]; simpl; [reflexivity|].
  now rewrite IH, orb_assoc.
Qed.

Lemma count_zero_iff (sep : ascii) (s : string) :
  Py.count sep s = 0%nat <-> Sessions.contains sep s = false.
Proof.
  induction s as [|c s IH]; simpl; [tauto|].
  destruct (Ascii.eqb c sep); simpl; [split; intros H; discriminate|exact IH].
Qed.

Lemma split_length (sep : ascii) (s : string) :
  length (Sessions.split sep s) = S (Py.count sep s).
Proof.
  induction s as [|c s IH]; simpl; [reflexivity|].
  destruct (Ascii.eqb c sep); simpl; [now rewrite IH|].
  destruct (Sessions.split sep s) as [|w ws] eqn:E; simpl in *; [discriminate|].
  exact IH.
Qed.

Lemma split_app_sep (sep : ascii) (a b : string) :
  Sessions.split sep (a ++ String sep b)
  = Sessions.split sep a ++ Sessions.split sep b.
Proof.
  induction a as [|c a IH]; simpl.
  - now rewrite Ascii.eqb_refl.
  - destruct (Ascii.eqb c sep); [now rewrite IH|].
    rewrite IH.
    destruct (Sessions.split sep a) as [|w ws] eqn:E;
      [now apply split_not_nil in E|reflexivity].
Qed.

Lemma join_split (sep : ascii) (s : string) :
  Py.join (String sep EmptyString) (Sessions.split sep s) = s.
Proof.
  induction s as [|c s IH]; simpl; [reflexivity|].
  destruct (Ascii.eqb_spec c sep) as [->|Hne].
  - destruct (Sessions.split sep s) as [|w ws] eqn:E;
      [now apply split_not_nil in E|].
    change (Py.join (String sep "") ("" :: w :: ws))%string
      with (String sep (Py.join (String sep "") (w :: ws)))%string.
    now rewrite IH.
  - destruct (Sessions.split sep s) as [|w ws] eqn:E;
      [now apply split_not_nil in E|].
    destruct ws as [|w' ws].
    + simpl in *. now rewrite IH.
    + change (Py.join (String sep "") (String c w :: w' :: ws))%string
        with (String c (Py.join (String sep "") (w :: w' :: ws)))%string.
      now rewrite IH.
Qed.

Lemma split_join (sep : ascii) (l : list string) :
  l <> [] ->
  Forall (fun w => Sessions.contains sep w = false) l ->
  Sessions.split sep (Py.join (String sep EmptyString) l) = l.
Proof.
  intros Hne Hall. induction Hall as [|x l Hx Hall IH]; [contradiction|].
  destruct l as [|y l].
  - simpl. now apply split_without_sep.
  - change (Py.join (String sep "") (x :: y :: l))%string
      with (x ++ String sep (Py.join (String sep "") (y :: l)))%string.
    rewrite split_app_sep, (split_without_sep _ _ Hx), IH by discriminate.
    reflexivity.
Qed.

Lemma splitn_zero (sep : ascii) (s : string) : Py.splitn sep 0 s = [s].
Proof. destruct s; reflexivity. Qed.

Lemma splitn_not_nil (sep : ascii) (n : nat) (s : string) :
  Py.splitn sep n s <> [].
Proof.
  destruct n as [|n]; [rewrite splitn_zero; discriminate|].
  destruct s as [|c s]; simpl; [discriminate|].
  destruct (Ascii.eqb c sep); [discriminate|].
  destruct (Py.splitn sep (S n) s); discriminate.
Qed.

Lemma splitn_length (sep : ascii) (n : nat) (s : string) :
  length (Py.splitn sep n s) = S (Nat.min n (Py.count sep s)).
Proof.
  revert n. induction s as [|c s IH]; intros [|n]; try reflexivity.
  simpl. destruct (Ascii.eqb c sep).
  - simpl. now rewrite IH.
  - specialize (IH (S n)).
    destruct (Py.splitn sep (S n) s) as [|w ws] eqn:E;
      [now apply splitn_not_nil in E|].
    simpl in *. exact IH.
Qed.

Lemma splitn_head (sep : ascii) (n : nat) (a b : string) :
  Sessions.contains sep a = false ->
  Py.splitn sep (S n) (a ++ String sep b) = a :: Py.splitn sep n b.
Proof.
  intros Ha. induction a as [|c a IH]; simpl in *.
  - now rewrite Ascii.eqb_refl.
  - apply orb_false_iff in Ha. destruct Ha as [Hc Ha].
    rewrite Hc. now rewrite (IH Ha).
Qed.

(** ** Loading the restaurant file *)

(** X1: a line of the restaurant file is rejected exactly when it has fewer
    than two tabs, that is fewer than three columns; columns after the third
    are ignored: two lines with the same first three columns are read alike,
    and so a line with at least three columns is read the same when further
    columns are appended to it. *)
Theorem restaurant_of_line_fails_iff (line : string) :
  (Loader.restaurant_of_line line = None <-> (Py.count Py.tab line < 2)%nat)
  /\ (forall line' : string,
        firstn 3 (Sessions.split Py.tab line')
        = firstn 3 (Sessions.split Py.tab line) ->
        Loader.restaurant_of_line line' = Loader.restaurant_of_line line)
  /\ (forall more : string,
        (2 <= Py.count Py.tab line)%nat ->
        Loader.restaurant_of_line (line ++ String Py.tab more)
        = Loader.restaurant_of_line line).
Proof.
  assert (Hcols : forall line' : string,
            firstn 3 (Sessions.split Py.tab line')
            = firstn 3 (Sessions.split Py.tab line) ->
            Loader.restaurant_of_line line' = Loader.restaurant_of_line line).
  { intros line' H. unfold Loader.restaurant_of_line.
    destruct (Sessions.split Py.tab line) as [|c0 [|c1 [|c2 rest]]];
      destruct (Sessions.split Py.tab line') as [|d0 [|d1 [|d2 rest']]];
      cbn [firstn] in H; try discriminate H; try reflexivity;
      injection H as; subst; reflexivity. }
  split; [|split; [exact Hcols|]].
  - unfold Loader.restaurant_of_line.
    pose proof (split_length Py.tab line) as Hlen.
    destruct (Sessions.split Py.tab line) as [|c0 [|c1 [|c2 rest]]];
      simpl in *; split; intros H; try reflexivity; try discriminate; lia.
  - intros more Hcount. apply Hcols.
    rewrite split_app_sep.
    pose proof (split_length Py.tab line) as Hlen.
    destruct (Sessions.split Py.tab line) as [|c0 [|c1 [|c2 rest]]];
      cbn [length] in Hlen; try lia.
    reflexivity.
Qed.

Lemma last_app_single (X : Type) (l : list X) (x d : X) : last (l ++ [x]) d = x.
Proof.
  induction l as [|y l IH]; [reflexivity|].
  simpl. destruct (l ++ [x]) eqn:E; [now destruct l|exact IH].
Qed.

Lemma split_text_then_field (sep : ascii) (text field : string) :
  Sessions.contains sep field = false ->
  Sessions.split sep (text ++ String sep field)
  = Sessions.split sep text ++ [field].
Proof.
  intros H. now rewrite split_app_sep, (split_without_sep _ _ H).
Qed.

(** X2: a line made of an identifier, a name and a third column
    [description price], separated by tabs, is read back as exactly these
    four fields, provided the first three hold no tab and the price holds
    neither a tab nor a space; the description may hold spaces. *)
Theorem restaurant_of_line_round_trip (i n d p : string) :
  Sessions.contains Py.tab i = false ->
  Sessions.contains Py.tab n = false ->
  Sessions.contains Py.tab d = false ->
  Sessions.contains Py.tab p = false ->
  Sessions.contains " " p = false ->
  Loader.restaurant_of_line
    (i ++ String Py.tab (n ++ String Py.tab (d ++ String " " p)))
  = Some (Loader.mkRestaurant i n d p).
Proof.
  intros Hi Hn Hd Hp Hsp. unfold Loader.restaurant_of_line.
  assert (Hc2 : Sessions.contains Py.tab (d ++ String " " p) = false).
  { rewrite contains_app, Hd. simpl. exact Hp. }
  rewrite split_app_sep, (split_without_sep _ _ Hi).
  rewrite split_app_sep, (split_without_sep _ _ Hn).
  rewrite (split_without_sep _ _ Hc2).
  cbn [app nth_error].
  rewrite (split_text_then_field _ _ _ Hsp).
  rewrite removelast_last, last_app_single, join_split. reflexivity.
Qed.

Lemma restaurant_of_line_round_trip_witness :
  Loader.restaurant_of_line
    ("0000008" ++ String Py.tab ("Pattaya" ++ String Py.tab
       ("026 235 074 205 051" ++ String " " "163")))
  = Some (Loader.mkRestaurant "0000008" "Pattaya" "026 235 074 205 051" "163").
Proof.
  apply restaurant_of_line_round_trip; reflexivity.
Defined.

(** X3: when the third column holds no space, the whole column is taken as
    the price and the description is empty. *)
Theorem restaurant_of_line_single_code (i n c : string) :
  Sessions.contains Py.tab i = false ->
  Sessions.contains Py.tab n = false ->
  Sessions.contains Py.tab c = false ->
  Sessions.contains " " c = false ->
  Loader.restaurant_of_line (i ++ String Py.tab (n ++ String Py.tab c))
  = Some (Loader.mkRestaurant i n EmptyString c).
Proof.
  intros Hi Hn Hc Hsp. unfold Loader.restaurant_of_line.
  rewrite split_app_sep, (split_without_sep _ _ Hi).
  rewrite split_app_sep, (split_without_sep _ _ Hn).
  rewrite (split_without_sep _ _ Hc).
  cbn [app nth_error]. now rewrite (split_without_sep _ _ Hsp).
Qed.

Lemma restaurant_of_line_single_code_witness :
  Loader.restaurant_of_line
    ("0000008" ++ String Py.tab ("Pattaya" ++ String Py.tab "163"))
  = Some (Loader.mkRestaurant "0000008" "Pattaya" "" "163").
Proof.
  apply restaurant_of_line_single_code; reflexivity.
Defined.

(** ** Loading the session file *)

(** X4: a line of the session file is rejected exactly when it has fewer
    than three tabs. *)
Theorem session_of_line_fails_iff (line : string) :
  Loader.session_of_line line = None <-> (Py.count Py.tab line < 3)%nat.
Proof.
  unfold Loader.session_of_line.
  pose proof (splitn_length Py.tab 3 line) as Hlen.
  destruct (Py.splitn Py.tab 3 line) as [|f0 [|f1 [|f2 [|f3 rest]]]];
    cbn [length] in Hlen; cbn [nth_error]; split; intros H;
    try reflexivity; try discriminate; lia.
Qed.

(** X5: a line [date, ip, entry point, visited pages..., end point],
    separated by tabs, is read back with the visited pages joined by single
    spaces in [rates] and the last field in [end_point]; with no visited
    page [rates] is empty. *)
Theorem session_of_line_round_trip (d i e : string) (pages : list string)
  (endp : string) :
  Sessions.contains Py.tab d = false ->
  Sessions.contains Py.tab i = false ->
  Sessions.contains Py.tab e = false ->
  Forall (fun w => Sessions.contains Py.tab w = false) pages ->
  Sessions.contains Py.tab endp = false ->
  Loader.session_of_line
    (d ++ String Py.tab (i ++ String Py.tab (e ++ String Py.tab
       (Py.join (String Py.tab EmptyString) (pages ++ [endp])))))
  = Some (Loader.mkSessionLine d i e (Py.join " " pages) endp).
Proof.
  intros Hd Hi He Hpages Hend. unfold Loader.session_of_line.
  rewrite (splitn_head _ 2 _ _ Hd), (splitn_head _ 1 _ _ Hi), (splitn_head _ 0 _ _ He).
  rewrite splitn_zero. cbn [nth_error].
  rewrite split_join.
  - now rewrite removelast_last, last_app_single.
  - now destruct pages.
  - apply Forall_app. split; [exact Hpages|]. constructor; [exact Hend|constructor].
Qed.

Lemma session_of_line_round_trip_witness :
  Loader.session_of_line
    ("01/Oct/1996:10:08:41 " ++ String Py.tab ("keeper.tribune.com"
       ++ String Py.tab ("0" ++ String Py.tab
            (Py.join (String Py.tab EmptyString)
               (["369N"%string; "369P"%string] ++ ["-1"%string])))))
  = Some (Loader.mkSessionLine "01/Oct/1996:10:08:41 " "keeper.tribune.com" "0"
            "369N 369P" "-1").
Proof.
  apply (session_of_line_round_trip "01/Oct/1996:10:08:41 " "keeper.tribune.com"
           "0" ["369N"; "369P"]%string "-1"); try reflexivity.
  repeat constructor.
Defined.

(** ** The dictionary of feature phrases *)

Lemma get_set_same (d : Py.dict) (k v : string) :
  Py.get (Py.set d k v) k = Some v.
Proof.
  induction d as [|[k' v'] d IH]; simpl.
  - now rewrite String.eqb_refl.
  - destruct (String.eqb k' k) eqn:E; simpl.
    + now rewrite String.eqb_refl.
    + now rewrite E.
Qed.

Lemma get_set_other (d : Py.dict) (k v k0 : string) :
  k <> k0 -> Py.get (Py.set d k v) k0 = Py.get d k0.
Proof.
  intros Hne. induction d as [|[k' v'] d IH]; simpl.
  - destruct (String.eqb_spec k k0); [contradiction|reflexivity].
  - destruct (String.eqb_spec k' k) as [->|Hk]; simpl.
    + destruct (String.eqb_spec k k0); [contradiction|reflexivity].
    + destruct (String.eqb k' k0); [reflexivity|exact IH].
Qed.

Lemma add_line_none (lines : list string) :
  fold_left Loader.add_line lines None = None.
Proof. induction lines as [|l lines IH]; [reflexivity|exact IH]. Qed.

Lemma add_line_some_iff (d : Py.dict) (line : string) :
  (exists d', Loader.add_line (Some d) line = Some d')
  <-> Py.count Py.tab line = 1%nat.
Proof.
  unfold Loader.add_line.
  pose proof (split_length Py.tab line) as Hlen.
  destruct (Sessions.split Py.tab line) as [|k [|v [|x rest]]];
    simpl in Hlen; split; intros H;
    try (destruct H; discriminate); try lia.
  eexists. reflexivity.
Qed.

Lemma fold_add_line_fails_iff (lines : list string) (d : Py.dict) :
  fold_left Loader.add_line lines (Some d) = None
  <-> Exists (fun line => Py.count Py.tab line <> 1%nat) lines.
Proof.
  revert d. induction lines as [|l lines IH]; intros d; cbn [fold_left].
  - split; [discriminate|intros H; inversion H].
  - destruct (Loader.add_line (Some d) l) as [d'|] eqn:E.
    + rewrite IH. split; intros H.
      * now apply Exists_cons_tl.
      * inversion H as [? ? Hbad|]; subst; [|assumption].
        exfalso. apply Hbad. apply (add_line_some_iff d). now exists d'.
    + rewrite add_line_none. split; [intros _|reflexivity].
      apply Exists_cons_hd. intros Hc.
      apply (add_line_some_iff d) in Hc. destruct Hc as [d' Hd']. congruence.
Qed.

(** X6: building the dictionary of feature phrases fails exactly when some
    line of the file does not hold one tab, that is does not split into a
    key and a value. *)
Theorem tokens_to_words_fails_iff (lines : list string) :
  Loader.tokens_to_words lines = None
  <-> Exists (fun line => Py.count Py.tab line <> 1%nat) lines.
Proof. apply fold_add_line_fails_iff. Qed.

Lemma fold_add_line_keeps (lines : list string) (d d' : Py.dict) (k : string) :
  fold_left Loader.add_line lines (Some d) = Some d' ->
  Forall (fun line => nth_error (Sessions.split Py.tab line) 0 <> Some k) lines ->
  Py.get d' k = Py.get d k.
Proof.
  revert d. induction lines as [|l lines IH]; intros d Hfold Hall;
    cbn [fold_left] in Hfold.
  - now inversion Hfold.
  - inversion Hall as [|? ? Hl Hall']; subst.
    destruct (Loader.add_line (Some d) l) as [d1|] eqn:E;
      [|rewrite add_line_none in Hfold; discriminate].
    rewrite (IH d1 Hfold Hall').
    unfold Loader.add_line in E.
    destruct (Sessions.split Py.tab l) as [|k1 [|v1 [|x rest]]]; try discriminate.
    inversion E; subst d1. apply get_set_other.
    intros ->. apply Hl. reflexivity.
Qed.

(** X7: in the dictionary built from the file, a code is mapped to the
    phrase of the last line that starts with it: earlier lines for the same
    code are overridden, later lines for other codes do not touch it. *)
Theorem tokens_to_words_last_wins (before after : list string) (k v : string)
  (d : Py.dict) :
  Loader.tokens_to_words
    (before ++ ((k ++ String Py.tab v)%string :: after))%list = Some d ->
  Sessions.contains Py.tab k = false ->
  Sessions.contains Py.tab v = false ->
  Forall (fun line => nth_error (Sessions.split Py.tab line) 0 <> Some k) after ->
  Py.get d k = Some v.
Proof.
  unfold Loader.tokens_to_words. intros Hd Hk Hv Hafter.
  rewrite fold_left_app in Hd. cbn [fold_left] in Hd.
  destruct (fold_left Loader.add_line before (Some [])) as [d0|];
    [|cbn [Loader.add_line] in Hd; rewrite add_line_none in Hd; discriminate].
  assert (Hstep : Loader.add_line (Some d0) (k ++ String Py.tab v)
                  = Some (Py.set d0 k v)).
  { unfold Loader.add_line.
    now rewrite split_app_sep, (split_without_sep _ _ Hk), (split_without_sep _ _ Hv). }
  rewrite Hstep in Hd.
  rewrite (fold_add_line_keeps _ _ _ _ Hd Hafter). apply get_set_same.
Qed.

Lemma tokens_to_words_last_wins_witness :
  Loader.tokens_to_words
    (["026" ++ String Py.tab "Old phrase"]%string
       ++ (("026" ++ String Py.tab "Cab")%string
             :: ["214" ++ String Py.tab "Parking/Valet"]%string))%list
  = Some [("026", "Cab"); ("214", "Parking/Valet")]%string
  /\ Py.get [("026", "Cab"); ("214", "Parking/Valet")]%string "026" = Some "Cab"%string.
Proof.
  assert (H : Loader.tokens_to_words
                (["026" ++ String Py.tab "Old phrase"]%string
                   ++ (("026" ++ String Py.tab "Cab")%string
                         :: ["214" ++ String Py.tab "Parking/Valet"]%string))%list
              = Some [("026", "Cab"); ("214", "Parking/Valet")]%string)
    by reflexivity.
  split; [exact H|].
  apply (tokens_to_words_last_wins _ _ _ _ _ H); try reflexivity.
  constructor; [|constructor]. vm_compute. discriminate.
Defined.

(** ** Tokens of a restaurant *)

Lemma phrases_fails_iff (d : Py.dict) (row_tokens : list string) :
  Loader.phrases d row_tokens = None
  <-> Exists (fun t => Py.get d t = None) row_tokens.
Proof.
  induction row_tokens as [|t ts IH]; simpl.
  - split; [discriminate|intros H; inversion H].
  - destruct (Py.get d t) as [p|] eqn:E.
    + destruct (Loader.phrases d ts) as [ps|].
      * split; [discriminate|]. intros H.
        inversion H as [? ? Hbad|? ? Hrest]; subst; [congruence|].
        apply IH in Hrest. discriminate.
      * split; [intros _|reflexivity]. apply Exists_cons_tl. now apply IH.
    + split; [intros _|reflexivity]. now apply Exists_cons_hd.
Qed.

Lemma phrases_words (d : Py.dict) (row_tokens : list string)
  (ps : list (list string)) :
  Loader.phrases d row_tokens = Some ps ->
  Forall (Forall (fun w => Sessions.contains " " w = false)) ps
  /\ length ps = length row_tokens.
Proof.
  revert ps. induction row_tokens as [|t ts IH]; intros ps H; simpl in H.
  - inversion H. split; [constructor|reflexivity].
  - destruct (Py.get d t) as [p|]; [|discriminate].
    destruct (Loader.phrases d ts) as [ps'|]; [|discriminate].
    inversion H; subst ps. destruct (IH ps' eq_refl) as [Hw Hl].
    split; [|simpl; now rewrite Hl].
    constructor; [apply split_pieces_without_sep|exact Hw].
Qed.

(** X8: the tokens of a restaurant cannot be computed exactly when one of
    its feature codes is not a key of the dictionary (a [KeyError]);
    otherwise no token holds a space, and there is at least one token per
    feature code. *)
Theorem flatten_phrases_spec (d : Py.dict) (row_tokens : list string) :
  (Loader.flatten_phrases d row_tokens = None
   <-> Exists (fun t => Py.get d t = None) row_tokens)
  /\ (forall ws, Loader.flatten_phrases d row_tokens = Some ws ->
        Forall (fun w => Sessions.contains " " w = false) ws
        /\ (length row_tokens <= length ws)%nat).
Proof.
  unfold Loader.flatten_phrases. split.
  - rewrite <- phrases_fails_iff.
    destruct (Loader.phrases d row_tokens); simpl; split; intros H;
      try reflexivity; discriminate.
  - intros ws H. destruct (Loader.phrases d row_tokens) as [ps|] eqn:E;
      [|discriminate].
    simpl in H. inversion H; subst ws. clear H.
    assert (Hne : Forall (fun p : list string => p <> []) ps).
    { clear -E. revert ps E. induction row_tokens as [|t ts IH]; intros ps E;
        simpl in E.
      - inversion E. constructor.
      - destruct (Py.get d t) as [p|]; [|discriminate].
        destruct (Loader.phrases d ts) as [ps'|]; [|discriminate].
        inversion E; subst ps. constructor; [apply split_not_nil|now apply IH]. }
    destruct (phrases_words _ _ _ E) as [Hw Hl]. rewrite <- Hl. clear E Hl.
    induction ps as [|p ps IH]; simpl; [split; [constructor|lia]|].
    inversion Hw as [|? ? Hp Hps]; subst. inversion Hne as [|? ? Hp' Hps']; subst.
    destruct (IH Hps' Hps) as [IH1 IH2]. split.
    + apply Forall_app. now split.
    + rewrite length_app. destruct p as [|w p]; [now contradiction Hp'|].
      cbn [length]. unfold token in *. lia.
Qed.

(** ** Personalities *)

Lemma join_two_contains (sep : ascii) (x y : string) (l : list string) :
  Sessions.contains sep (Py.join (String sep EmptyString) (x :: y :: l)) = true.
Proof.
  change (Py.join (String sep "") (x :: y :: l))%string
    with (x ++ String sep (Py.join (String sep "") (y :: l)))%string.
  rewrite contains_app. simpl. rewrite Ascii.eqb_refl. apply orb_true_r.
Qed.

Lemma nodup_nil_inv (l : list string) : nodup string_dec l = [] -> l = [].
Proof.
  destruct l as [|x l]; [reflexivity|]. intros H. exfalso.
  assert (Hin : In x (nodup string_dec (x :: l))) by (apply nodup_In; now left).
  rewrite H in Hin. exact Hin.
Qed.

Lemma get_in (d : Py.dict) (k v : string) :
  Py.get d k = Some v -> In (k, v) d.
Proof.
  induction d as [|[k' v'] d IH]; simpl; [discriminate|].
  destruct (String.eqb_spec k' k) as [->|_]; intros H.
  - inversion H. now left.
  - right. now apply IH.
Qed.

Lemma get_none (d : Py.dict) (k : string) :
  (forall v, ~ In (k, v) d) -> Py.get d k = None.
Proof.
  intros H. destruct (Py.get d k) as [v|] eqn:E; [|reflexivity].
  exfalso. apply (H v). now apply get_in.
Qed.

Lemma labels_in (mapping : Py.dict) (rates v : string) :
  In v (Personalities.labels mapping rates)
  <-> exists c, In c (list_ascii_of_string rates) /\ Py.isalpha c = true
                /\ Py.get mapping (String c EmptyString) = Some v
                /\ v <> EmptyString.
Proof.
  unfold Personalities.labels, Personalities.letters.
  rewrite list_ascii_of_string_of_list_ascii, in_flat_map. split.
  - intros (c & Hc & Hv). apply filter_In in Hc. destruct Hc as [Hc Ha].
    exists c. destruct (Py.get mapping (String c "")) as [[|a w]|];
      simpl in Hv; try contradiction.
    destruct Hv as [<-|[]]. repeat split; try assumption. discriminate.
  - intros (c & Hc & Ha & Hg & Hne). exists c. split.
    + apply filter_In. now split.
    + rewrite Hg. destruct v; [contradiction|now left].
Qed.

Lemma labels_values (mapping : Py.dict) (rates : string) (P : string -> Prop) :
  (forall k v, In (k, v) mapping -> P v) ->
  Forall P (Personalities.labels mapping rates).
Proof.
  intros H. apply Forall_forall. intros v Hv.
  apply labels_in in Hv. destruct Hv as (c & _ & _ & Hg & _).
  apply get_in in Hg. eapply H. exact Hg.
Qed.

Lemma labels_not_empty_string (mapping : Py.dict) (rates : string) :
  Forall (fun v => v <> EmptyString) (Personalities.labels mapping rates).
Proof.
  apply Forall_forall. intros v Hv. apply labels_in in Hv.
  now destruct Hv as (c & _ & _ & _ & Hne).
Qed.

Section PersonalityFacts.
Variable set_order : list string -> list string.
Hypothesis set_order_perm :
  forall l, Permutation (set_order l) (nodup string_dec l).

Lemma set_order_in (l : list string) (v : string) :
  In v (set_order l) <-> In v l.
Proof.
  split; intros H.
  - apply (Permutation_in _ (set_order_perm l)) in H. now apply nodup_In in H.
  - apply (Permutation_in _ (Permutation_sym (set_order_perm l))).
    now apply nodup_In.
Qed.

Lemma set_order_nil_iff (l : list string) : set_order l = [] <-> l = [].
Proof.
  split; intros H.
  - apply nodup_nil_inv. apply Permutation_nil.
    rewrite <- H. apply set_order_perm.
  - subst l. apply Permutation_nil. apply Permutation_sym, (set_order_perm []).
Qed.

Lemma personality_pieces (mapping : Py.dict) (rates : string) :
  (forall k v, In (k, v) mapping -> Sessions.contains " " v = false) ->
  (Personalities.labels mapping rates = [] ->
   Personalities.get_personalities set_order rates mapping = EmptyString)
  /\ (Personalities.labels mapping rates <> [] ->
      Sessions.split " " (Personalities.get_personalities set_order rates mapping)
      = set_order (Personalities.labels mapping rates)).
Proof.
  intros Hvals. unfold Personalities.get_personalities. split.
  - intros H. rewrite H.
    now rewrite (proj2 (set_order_nil_iff []) eq_refl).
  - intros H. apply split_join.
    + intros E. apply H. now apply set_order_nil_iff.
    + apply Forall_forall. intros v Hv. apply (proj1 (set_order_in _ _)) in Hv.
      pose proof (labels_values mapping rates _ Hvals) as Hall.
      rewrite Forall_forall in Hall. now apply Hall.
Qed.

Lemma personality_piece_iff (mapping : Py.dict) (rates v : string) :
  (forall k v, In (k, v) mapping -> Sessions.contains " " v = false) ->
  In v (Sessions.split " "
          (Personalities.get_personalities set_order rates mapping))
  <-> (v = EmptyString /\ Personalities.labels mapping rates = [])
      \/ In v (Personalities.labels mapping rates).
Proof.
  intros Hvals. destruct (personality_pieces mapping rates Hvals) as [H0 H1].
  destruct (Personalities.labels mapping rates) as [|x l] eqn:E.
  - rewrite (H0 eq_refl). simpl. split.
    + intros [<-|[]]. now left.
    + intros [[-> _]|[]]. now left.
  - rewrite H1 by discriminate. rewrite set_order_in. split.
    + now right.
    + intros [[_ H]|H]; [discriminate|exact H].
Qed.

End PersonalityFacts.

(** X9: whatever order Python iterates the set in, the personality string
    of a session is empty when its rates carry no mapped letter, and
    otherwise splits at spaces into exactly the distinct labels of its mapped
    letters, each once (the labels of the mapping holding no space). *)
Theorem get_personalities_pieces (set_order : list string -> list string)
  (mapping : Py.dict) (rates : string) :
  (forall l, Permutation (set_order l) (nodup string_dec l)) ->
  (forall k v, In (k, v) mapping -> Sessions.contains " " v = false) ->
  (Personalities.labels mapping rates = [] ->
   Personalities.get_personalities set_order rates mapping = EmptyString)
  /\ (Personalities.labels mapping rates <> [] ->
      Permutation
        (Sessions.split " "
           (Personalities.get_personalities set_order rates mapping))
        (nodup string_dec (Personalities.labels mapping rates))).
Proof.
  intros Hperm Hvals.
  destruct (personality_pieces set_order Hperm mapping rates Hvals) as [H0 H1].
  split; [exact H0|]. intros Hne. rewrite (H1 Hne). apply Hperm.
Qed.

Lemma letters_to_personalities_no_space (k v : string) :
  In (k, v) Personalities.letters_to_personalities ->
  Sessions.contains " " v = false.
Proof.
  unfold Personalities.letters_to_personalities. simpl.
  intros [H|[H|[H|[H|[H|[]]]]]]; inversion H; reflexivity.
Qed.

Lemma nodup_is_set_order (l : list string) :
  Permutation (nodup string_dec l) (nodup string_dec l).
Proof. apply Permutation_refl. Qed.

Lemma get_personalities_pieces_witness :
  Personalities.labels Personalities.letters_to_personalities "274Q 122R 369L"
    <> []
  /\ Permutation
       (Sessions.split " "
          (Personalities.get_personalities (nodup string_dec) "274Q 122R 369L"
             Personalities.letters_to_personalities))
       (nodup string_dec
          (Personalities.labels Personalities.letters_to_personalities
             "274Q 122R 369L")).
Proof.
  assert (H : Personalities.labels Personalities.letters_to_personalities
                "274Q 122R 369L" <> []) by (vm_compute; discriminate).
  split; [exact H|].
  exact (proj2 (get_personalities_pieces (nodup string_dec)
                  Personalities.letters_to_personalities "274Q 122R 369L"
                  nodup_is_set_order letters_to_personalities_no_space) H).
Defined.

(** X10: when every key of the mapping is one alphabetic character, a label
    is collected for a session exactly when some character of its rates is
    mapped to it: the digits, spaces and unmapped letters of the rates are
    ignored, and filtering the letters first changes nothing. *)
Theorem labels_iff_mapped_character (mapping : Py.dict) (rates v : string) :
  (forall k w, In (k, w) mapping ->
     exists c, k = String c EmptyString /\ Py.isalpha c = true) ->
  In v (Personalities.labels mapping rates)
  <-> exists c, In c (list_ascii_of_string rates)
                /\ Py.get mapping (String c EmptyString) = Some v
                /\ v <> EmptyString.
Proof.
  intros Hkeys. rewrite labels_in. split.
  - intros (c & Hc & _ & Hg & Hne). now exists c.
  - intros (c & Hc & Hg & Hne). exists c. repeat split; try assumption.
    apply get_in in Hg. destruct (Hkeys _ _ Hg) as (c' & E & Ha).
    inversion E; subst. exact Ha.
Qed.

Lemma letters_to_personalities_keys (k w : string) :
  In (k, w) Personalities.letters_to_personalities ->
  exists c, k = String c EmptyString /\ Py.isalpha c = true.
Proof.
  unfold Personalities.letters_to_personalities. simpl.
  intros [H|[H|[H|[H|[H|[]]]]]]; inversion H; eexists; split; reflexivity.
Qed.

Lemma labels_iff_mapped_character_witness :
  In "creative"%string
    (Personalities.labels Personalities.letters_to_personalities "274Q 122R").
Proof.
  apply (proj2 (labels_iff_mapped_character
                  Personalities.letters_to_personalities "274Q 122R" "creative"
                  letters_to_personalities_keys)).
  exists "Q"%char. repeat split; [vm_compute; tauto|discriminate].
Defined.

(** ** Personalities and indicator columns *)

Section DummiesFacts.
Variable set_order : list string -> list string.
Hypothesis set_order_perm :
  forall l, Permutation (set_order l) (nodup string_dec l).

Lemma col_attributes_in (df_session : list Loader.SessionLine) (v : string) :
  In v (Sessions.col_attributes
          (map (Personalities.with_personality set_order) df_session))
  <-> exists r, In r df_session
        /\ ((v = EmptyString
             /\ Personalities.labels Personalities.letters_to_personalities
                  (Loader.rates r) = [])
            \/ In v (Personalities.labels Personalities.letters_to_personalities
                       (Loader.rates r))).
Proof.
  unfold Sessions.col_attributes. rewrite nodup_In, in_flat_map. split.
  - intros (p & Hp & Hv). apply nodup_In in Hp. rewrite map_map in Hp.
    apply in_map_iff in Hp. destruct Hp as (r & <- & Hr).
    exists r. split; [exact Hr|].
    apply (personality_piece_iff set_order set_order_perm _ _ _
             letters_to_personalities_no_space). exact Hv.
  - intros (r & Hr & Hv).
    exists (Personalities.get_personalities set_order (Loader.rates r)
              Personalities.letters_to_personalities).
    split.
    + apply nodup_In. rewrite map_map. apply in_map_iff. now exists r.
    + apply (personality_piece_iff set_order set_order_perm _ _ _
               letters_to_personalities_no_space). exact Hv.
Qed.

Lemma indicator_iff_only_label (df_session : list Loader.SessionLine)
  (r : Loader.SessionLine) (ty : string) :
  In ty (Sessions.col_attributes
           (map (Personalities.with_personality set_order) df_session)) ->
  Sessions.indicator
    (Personalities.get_personalities set_order (Loader.rates r)
       Personalities.letters_to_personalities) ty = 1%nat
  <-> (ty = EmptyString
       /\ Personalities.labels Personalities.letters_to_personalities
            (Loader.rates r) = [])
      \/ (ty <> EmptyString
          /\ nodup string_dec
               (Personalities.labels Personalities.letters_to_personalities
                  (Loader.rates r)) = [ty]).
Proof.
  intros Hty. apply col_attributes_without_space in Hty.
  rewrite indicator_one_iff. unfold Personalities.get_personalities.
  set (L := Personalities.labels Personalities.letters_to_personalities
              (Loader.rates r)).
  pose proof (set_order_perm L) as Hperm.
  pose proof (labels_not_empty_string Personalities.letters_to_personalities
                (Loader.rates r)) as Hne.
  fold L in Hne. rewrite Forall_forall in Hne.
  destruct (set_order L) as [|x [|y l]] eqn:E.
  - assert (HL : L = []) by now apply (set_order_nil_iff set_order set_order_perm).
    simpl. split.
    + intros <-. now left.
    + intros [[-> _]|[_ H]]; [reflexivity|].
      rewrite HL in H. discriminate.
  - apply Permutation_length_1_inv in Hperm.
    assert (Hx : x <> EmptyString).
    { apply Hne. apply nodup_In with (decA := string_dec). rewrite Hperm. now left. }
    simpl. split.
    + intros <-. right. now split.
    + intros [[_ HL]|[_ H]].
      * rewrite HL in Hperm. discriminate.
      * rewrite Hperm in H. now inversion H.
  - split.
    + intros H. pose proof (join_two_contains " " x y l) as Hc.
      rewrite H in Hc. congruence.
    + intros [[_ HL]|[_ H]].
      * rewrite HL in Hperm. apply Permutation_length in Hperm. discriminate.
      * rewrite H in Hperm. apply Permutation_length in Hperm. discriminate.
Qed.

End DummiesFacts.

(** X11: whatever order Python iterates the set in, an indicator column of
    [get_dummies] named by a label is 1 for a session exactly when that label
    is the only one the letters of its rates are mapped to; the column with
    the empty name is 1 exactly for the sessions without any mapped
    letter. *)
Theorem flag_iff_only_label (set_order : list string -> list string)
  (df_session : list Loader.SessionLine)
  (s : Sessions.Session) (cols : list (string * nat)) (ty : string) (b : nat) :
  (forall l, Permutation (set_order l) (nodup string_dec l)) ->
  In (s, cols) (Sessions.get_dummies
                  (map (Personalities.with_personality set_order) df_session)) ->
  In (ty, b) cols ->
  b = 1%nat
  <-> (ty = EmptyString
       /\ Personalities.labels Personalities.letters_to_personalities
            (Sessions.rates s) = [])
      \/ (ty <> EmptyString
          /\ nodup string_dec
               (Personalities.labels Personalities.letters_to_personalities
                  (Sessions.rates s)) = [ty]).
Proof.
  intros Hperm Hin Hcol. unfold Sessions.get_dummies in Hin.
  apply in_map_iff in Hin. destruct Hin as (s' & Heq & Hs).
  inversion Heq; subst s' cols. clear Heq.
  apply in_map_iff in Hs. destruct Hs as (r & <- & Hr).
  apply in_map_iff in Hcol. destruct Hcol as (ty' & Heq & Hty).
  inversion Heq; subst ty' b. clear Heq.
  exact (indicator_iff_only_label set_order Hperm df_session r ty Hty).
Qed.

Lemma flag_iff_only_label_witness :
  let sessions := [Loader.mkSessionLine "d" "host" "0" "274Q 122Q" "122";
                   Loader.mkSessionLine "d" "host" "0" "274Q 122R" "122"]%string in
  let s := Personalities.with_personality (nodup string_dec)
             (Loader.mkSessionLine "d" "host" "0" "274Q 122Q" "122")%string in
  let cols := [("creative", 1); ("fun", 0)]%string%nat in
  In (s, cols)
     (Sessions.get_dummies
        (map (Personalities.with_personality (nodup string_dec)) sessions))
  /\ In ("creative"%string, 1%nat) cols
  /\ nodup string_dec
       (Personalities.labels Personalities.letters_to_personalities
          (Sessions.rates s)) = ["creative"%string].
Proof.
  intros sessions s cols.
  assert (H1 : In (s, cols)
                 (Sessions.get_dummies
                    (map (Personalities.with_personality (nodup string_dec))
                       sessions))) by (vm_compute; left; reflexivity).
  assert (H2 : In ("creative"%string, 1%nat) cols) by (left; reflexivity).
  split; [exact H1|]. split; [exact H2|].
  destruct (proj1 (flag_iff_only_label (nodup string_dec) sessions s cols
                     "creative" 1 nodup_is_set_order H1 H2) eq_refl)
    as [[H _]|[_ H]]; [discriminate|exact H].
Defined.

(** X12: [get_dummies] creates a column with the empty name exactly when
    some session has no mapped letter in its rates, because splitting the
    empty personality string gives one empty label. *)
Theorem empty_label_column (set_order : list string -> list string)
  (df_session : list Loader.SessionLine) :
  (forall l, Permutation (set_order l) (nodup string_dec l)) ->
  In EmptyString
     (Sessions.col_attributes
        (map (Personalities.with_personality set_order) df_session))
  <-> exists r, In r df_session
        /\ Personalities.labels Personalities.letters_to_personalities
             (Loader.rates r) = [].
Proof.
  intros Hperm. rewrite (col_attributes_in set_order Hperm). split.
  - intros (r & Hr & [[_ H]|H]); [now exists r|].
    exfalso.
    pose proof (labels_not_empty_string Personalities.letters_to_personalities
                  (Loader.rates r)) as Hne.
    rewrite Forall_forall in Hne. now apply (Hne _ H).
  - intros (r & Hr & H). exists r. split; [exact Hr|]. left. now split.
Qed.

Lemma empty_label_column_witness :
  In EmptyString
     (Sessions.col_attributes
        (map (Personalities.with_personality (nodup string_dec))
           [Loader.mkSessionLine "d" "host" "0" "204L" "204"]%string)).
Proof.
  apply (proj2 (empty_label_column (nodup string_dec)
                  [Loader.mkSessionLine "d" "host" "0" "204L" "204"]%string
                  nodup_is_set_order)).
  eexists. split; [left; reflexivity|]. reflexivity.
Defined.

(** ** Selecting the indicator columns *)

Lemma column_of_attributes (f : string -> nat) (attrs : list string)
  (label : string) :
  In label attrs ->
  Personalities.column (map (fun ty => (ty, f ty)) attrs) label = Some (f label).
Proof.
  induction attrs as [|a attrs IH]; simpl; [tauto|].
  intros H. destruct (String.eqb_spec a label) as [->|Hne]; [reflexivity|].
  destruct H as [H|H]; [contradiction|now apply IH].
Qed.

Lemma wanted_labels_not_empty (label : string) :
  In label (map snd Personalities.letters_to_personalities) ->
  label <> EmptyString.
Proof.
  simpl. intros [H|[H|[H|[H|[H|[]]]]]]; subst; discriminate.
Qed.

Lemma selection_resolves_iff (attrs wanted : list string) :
  forallb (fun label => existsb (String.eqb label) attrs) wanted = true
  <-> forall label, In label wanted -> In label attrs.
Proof.
  rewrite forallb_forall. split; intros H label Hl.
  - apply H in Hl. apply existsb_exists in Hl. destruct Hl as (x & Hx & E).
    apply String.eqb_eq in E. now subst.
  - apply existsb_exists. exists label. split; [now apply H|apply String.eqb_refl].
Qed.

Lemma sessions_of_lines_length (lines : list string)
  (rows : list Loader.SessionLine) :
  Loader.sessions_of_lines lines = Some rows -> length rows = length lines.
Proof.
  revert rows. induction lines as [|line lines IH]; intros rows H; simpl in H.
  - now injection H as <-.
  - destruct (Loader.session_of_line line) as [r|]; [|discriminate].
    destruct (Loader.sessions_of_lines lines) as [rs|]; [|discriminate].
    injection H as <-. simpl. now rewrite (IH rs).
Qed.

(** X13: on a frame of sessions, selecting the five personality columns
    succeeds exactly when each of the five labels is carried by the rates of
    at least one session; otherwise a label column is missing and the
    selection fails.  When it succeeds, every session gives one row with its
    date, ip, rates and the five indicators, each comparing its whole
    personality string with one label.  A frame read from a session file has
    one row for each line and is never empty: on a file without lines the
    loader has failed before this step. *)
Theorem users_rates_spec (set_order : list string -> list string)
  (df_session : list Loader.SessionLine) :
  (forall l, Permutation (set_order l) (nodup string_dec l)) ->
  ((exists rows, Personalities.users_rates set_order df_session = Some rows)
   <-> forall label,
         In label (map snd Personalities.letters_to_personalities) ->
         exists r, In r df_session
           /\ In label (Personalities.labels
                          Personalities.letters_to_personalities (Loader.rates r)))
  /\ (forall rows,
        Personalities.users_rates set_order df_session = Some rows ->
        rows = map (fun r =>
                      (Loader.date r, Loader.ip r,
                       map (Sessions.indicator
                              (Personalities.get_personalities set_order
                                 (Loader.rates r)
                                 Personalities.letters_to_personalities))
                           (map snd Personalities.letters_to_personalities),
                       Loader.rates r))
                   df_session)
  /\ (forall lines,
        Loader.transform_session_data lines = Some df_session ->
        lines <> [] /\ df_session <> []
        /\ length df_session = length lines).
Proof.
  intros Hperm.
  assert (Hfile : forall lines,
            Loader.transform_session_data lines = Some df_session ->
            lines <> [] /\ df_session <> []
            /\ length df_session = length lines).
  { intros lines H. unfold Loader.transform_session_data in H.
    destruct lines as [|line lines]; [discriminate|].
    apply sessions_of_lines_length in H.
    split; [discriminate|]. split; [|exact H].
    intros ->. discriminate. }
  rewrite <- and_assoc. split; [|exact Hfile]. clear Hfile.
  unfold Personalities.users_rates. cbv zeta.
  remember (map snd Personalities.letters_to_personalities) as wanted eqn:Hw.
  remember (map (Personalities.with_personality set_order) df_session) as df
    eqn:Hdf.
  assert (Hattr : forall v, In v (Sessions.col_attributes df)
            <-> exists r, In r df_session
                  /\ ((v = EmptyString
                       /\ Personalities.labels
                            Personalities.letters_to_personalities
                            (Loader.rates r) = [])
                      \/ In v (Personalities.labels
                                 Personalities.letters_to_personalities
                                 (Loader.rates r)))).
  { intros v. rewrite Hdf. apply (col_attributes_in set_order Hperm). }
  destruct (forallb (fun label => existsb (String.eqb label)
                                    (Sessions.col_attributes df)) wanted) eqn:E.
  - pose proof (proj1 (selection_resolves_iff (Sessions.col_attributes df) wanted) E)
      as E'. clear E.
    split.
    + split; [|intros _; eexists; reflexivity].
      intros _ label Hl. pose proof (E' label Hl) as Hin.
      apply Hattr in Hin.
      destruct Hin as (r & Hr & [[He _]|H]); [|now exists r].
      rewrite Hw in Hl. now apply wanted_labels_not_empty in Hl.
    + intros rows H. injection H as <-.
      unfold Sessions.get_dummies. rewrite map_map.
      set (attrs := Sessions.col_attributes df) in *.
      rewrite Hdf, map_map. apply map_ext. intros r. cbn [fst snd].
      assert (Hflags :
                map (fun label =>
                       match Personalities.column
                               (map (fun ty =>
                                       (ty, Sessions.indicator
                                              (Sessions.personality
                                                 (Personalities.with_personality
                                                    set_order r)) ty))
                                  attrs) label with
                       | Some b => b
                       | None => 0%nat
                       end) wanted
                = map (Sessions.indicator
                         (Personalities.get_personalities set_order
                            (Loader.rates r)
                            Personalities.letters_to_personalities)) wanted).
      { apply map_ext_in. intros label Hl.
        now rewrite (column_of_attributes _ _ _ (E' label Hl)). }
      rewrite Hflags. reflexivity.
  - split; [|intros rows H; discriminate].
    split; [intros [rows H]; discriminate|].
    intros H. exfalso.
    assert (Hall : forallb (fun label => existsb (String.eqb label)
                              (Sessions.col_attributes df)) wanted = true).
    { apply (proj2 (selection_resolves_iff (Sessions.col_attributes df) wanted)).
      intros label Hl. apply Hattr.
      destruct (H label Hl) as (r & Hr & Hin). exists r. split; [exact Hr|now right]. }
    congruence.
Qed.

Lemma users_rates_spec_witness :
  Personalities.users_rates (nodup string_dec)
    [Loader.mkSessionLine "d" "host" "0" "274Q 122R" "122"]%string = None
  /\ Loader.transform_session_data
       ["d" ++ String Py.tab ("host" ++ String Py.tab ("0" ++ String Py.tab
          ("274Q" ++ String Py.tab ("122R" ++ String Py.tab "122"))))]%string
     = Some [Loader.mkSessionLine "d" "host" "0" "274Q 122R" "122"]%string
  /\ [Loader.mkSessionLine "d" "host" "0" "274Q 122R" "122"]%string <> [].
Proof.
  pose proof (users_rates_spec (nodup string_dec)
                [Loader.mkSessionLine "d" "host" "0" "274Q 122R" "122"]%string
                nodup_is_set_order) as (Hiff & _ & Hfile).
  assert (Hload : Loader.transform_session_data
            ["d" ++ String Py.tab ("host" ++ String Py.tab ("0" ++ String Py.tab
               ("274Q" ++ String Py.tab ("122R" ++ String Py.tab "122"))))]%string
          = Some [Loader.mkSessionLine "d" "host" "0" "274Q 122R" "122"]%string)
    by reflexivity.
  split; [|split; [exact Hload|exact (proj1 (proj2 (Hfile _ Hload)))]].
  destruct (Personalities.users_rates (nodup string_dec)
              [Loader.mkSessionLine "d" "host" "0" "274Q 122R" "122"]%string)
    as [rows|] eqn:E; [|reflexivity].
  exfalso.
  destruct (proj1 Hiff (ex_intro _ rows eq_refl) "quiet"%string)
    as (r & [Hr|[]] & Hin).
  - simpl. do 4 right. left. reflexivity.
  - subst r. vm_compute in Hin. destruct Hin as [H|[H|[]]]; discriminate.
Defined.

(** ** Listing the neighbours *)


Section DisplayFacts.
Variable T : Type.
Variable A : Arith T.








End DisplayFacts.



(** ** The vocabulary *)

Section VocabularyFacts.
Variable df : DataFrame.

Local Abbreviation more_frequent :=
  (fun t u : token =>
     (CountVectorizer.corpus_count df u <= CountVectorizer.corpus_count df t)%nat).

Lemma insert_by_count_perm (t : token) (l : list token) :
  Permutation (CountVectorizer.insert_by_count df t l) (t :: l).
Proof.
  induction l as [|u l IH]; simpl; [apply Permutation_refl|].
  destruct (CountVectorizer.corpus_count df t <=? CountVectorizer.corpus_count df u).
  - apply Permutation_trans with (u :: t :: l); [now apply perm_skip|apply perm_swap].
  - apply Permutation_refl.
Qed.

Lemma fold_insert_by_count_perm (l acc : list token) :
  Permutation
    (fold_left (fun acc t => CountVectorizer.insert_by_count df t acc) l acc)
    (acc ++ l).
Proof.
  revert acc. induction l as [|t l IH]; intros acc; simpl.
  - rewrite app_nil_r. apply Permutation_refl.
  - apply Permutation_trans with (CountVectorizer.insert_by_count df t acc ++ l);
      [apply IH|].
    apply Permutation_trans with ((t :: acc) ++ l).
    + apply Permutation_app_tail, insert_by_count_perm.
    + simpl. apply Permutation_middle.
Qed.

Lemma insert_by_count_sorted (t : token) (l : list token) :
  StronglySorted more_frequent l ->
  StronglySorted more_frequent (CountVectorizer.insert_by_count df t l).
Proof.
  induction 1 as [|u l Hs IH Hu]; simpl.
  - constructor; constructor.
  - destruct (Nat.leb_spec (CountVectorizer.corpus_count df t)
                (CountVectorizer.corpus_count df u)) as [Hle|Hlt].
    + constructor; [exact IH|].
      apply (Permutation_Forall (Permutation_sym (insert_by_count_perm t l))).
      constructor; assumption.
    + constructor; [constructor; assumption|].
      constructor; [lia|].
      rewrite Forall_forall in *. intros v Hv. specialize (Hu v Hv).
      cbv beta in *. lia.
Qed.

Lemma fold_insert_by_count_sorted (l acc : list token) :
  StronglySorted more_frequent acc ->
  StronglySorted more_frequent
    (fold_left (fun acc t => CountVectorizer.insert_by_count df t acc) l acc).
Proof.
  revert acc. induction l as [|t l IH]; intros acc Hs; simpl; [exact Hs|].
  apply IH, insert_by_count_sorted, Hs.
Qed.

Lemma corpus_token_iff (t : token) :
  In t (List.concat (map tokens df)) <-> exists r, In r df /\ In t (tokens r).
Proof.
  rewrite in_concat. split.
  - intros (l & Hl & Ht). apply in_map_iff in Hl. destruct Hl as (r & <- & Hr).
    now exists r.
  - intros (r & Hr & Ht). exists (tokens r). split; [now apply in_map|exact Ht].
Qed.

End VocabularyFacts.

(** X15: the fitted vocabulary lists distinct terms, each found in some row
    of the frame it was fitted on, in descending order of their number of
    occurrences in that frame; unless there are more than [vocabSize]
    distinct terms, every term of the frame is in it. *)
Theorem vocabulary_spec (df : DataFrame) :
  NoDup (CountVectorizer.fit df)
  /\ (forall t, In t (CountVectorizer.fit df) ->
        exists r, In r df /\ In t (tokens r))
  /\ StronglySorted
       (fun t u => (CountVectorizer.corpus_count df u
                    <= CountVectorizer.corpus_count df t)%nat)
       (CountVectorizer.fit df)
  /\ ((length (nodup string_dec (List.concat (map tokens df)))
       <= CountVectorizer.vocabSize)%nat ->
      forall r t, In r df -> In t (tokens r) -> In t (CountVectorizer.fit df)).
Proof.
  unfold CountVectorizer.fit.
  set (terms := nodup string_dec (List.concat (map tokens df))).
  set (sorted := fold_left
                   (fun acc t => CountVectorizer.insert_by_count df t acc)
                   terms []).
  assert (Hperm : Permutation sorted terms)
    by apply (fold_insert_by_count_perm df terms []).
  assert (Hnd : NoDup sorted).
  { apply (Permutation_NoDup (Permutation_sym Hperm)). apply NoDup_nodup. }
  split; [|split; [|split]].
  - rewrite <- (firstn_skipn CountVectorizer.vocabSize sorted) in Hnd.
    now apply NoDup_app_remove_r in Hnd.
  - intros t Ht. apply In_firstn_of in Ht.
    apply (Permutation_in _ Hperm) in Ht. apply nodup_In in Ht.
    now apply corpus_token_iff.
  - apply StronglySorted_firstn.
    apply (fold_insert_by_count_sorted df terms []). constructor.
  - intros Hsize r t Hr Ht. rewrite firstn_all2.
    + apply (Permutation_in _ (Permutation_sym Hperm)). apply nodup_In.
      apply corpus_token_iff. exists r. split; assumption.
    + rewrite (Permutation_length Hperm). exact Hsize.
Qed.

Lemma vocabulary_spec_witness :
  (length (nodup string_dec (List.concat (map tokens two_restaurants)))
   <= CountVectorizer.vocabSize)%nat
  /\ In "Curry"%string (CountVectorizer.fit two_restaurants).
Proof.
  assert (H : (length (nodup string_dec (List.concat (map tokens two_restaurants)))
               <= CountVectorizer.vocabSize)%nat).
  { apply Nat.leb_le. vm_compute. reflexivity. }
  split; [exact H|].
  apply (proj2 (proj2 (proj2 (vocabulary_spec two_restaurants))) H
           (mkRow 1 ["Curry"%string]) "Curry"%string).
  - right. left. reflexivity.
  - left. reflexivity.
Defined.

(** ** Rows of the classifier's array *)

Lemma idf_frame_has_row (tokens_df df : DataFrame) (r : Row) :
  In r tokens_df ->
  In (id r, row_weights tokens_df df r)
     (CosinusSimilarityClassifier.idf_frame tokens_df df).
Proof. intros H. exact (idf_frame_row tokens_df df r H). Qed.

Lemma idf_frame_rows (tokens_df df : DataFrame) (i : nat) (w : list R) :
  In (i, w) (CosinusSimilarityClassifier.idf_frame tokens_df df) ->
  exists r, In r tokens_df /\ i = id r /\ w = row_weights tokens_df df r.
Proof.
  unfold CosinusSimilarityClassifier.idf_frame, IDF.transform,
    CountVectorizer.transform, row_weights.
  rewrite !map_map. cbn [fst snd]. intros H. apply in_map_iff in H.
  destruct H as (r & E & Hr). inversion E. now exists r.
Qed.

Lemma classifier_row (tokens_df df : DataFrame) (r : Row) :
  NoDup (map id tokens_df) -> In r tokens_df ->
  Matrix.row exact (CosinusSimilarityClassifier.idf_frame tokens_df df) (id r)
  = row_weights tokens_df df r.
Proof.
  intros Hnd Hr. apply row_of_item.
  - now rewrite idf_frame_ids.
  - now apply idf_frame_has_row.
Qed.

Lemma classifier_numRows (tokens_df df : DataFrame) (r : Row) :
  In r tokens_df ->
  (id r < Matrix.numRows (CosinusSimilarityClassifier.idf_frame tokens_df df))%nat.
Proof.
  intros Hr. eapply numRows_bound. apply idf_frame_has_row. exact Hr.
Qed.

Lemma sumprod_zero_l (a b : list R) :
  Forall (fun x => x = 0%R) a -> sumprod a b = 0%R.
Proof.
  unfold sumprod. intros Ha. revert b.
  induction Ha as [|x a Hx _ IH]; intros [|y b]; simpl; try reflexivity.
  rewrite IH, Hx. lra.
Qed.

Lemma transform_row_all_zero (v : list R) :
  Forall (fun x => x = 0%R) v ->
  Forall (fun x => x = 0%R) (Normalizer.transform_row exact v).
Proof.
  intros H. now rewrite transform_row_zero by now apply sumsq_all_zero.
Qed.

Lemma zero_row_zero_entries (weights : list (nat * list R)) (i j : nat) (x : R) :
  Forall (fun x => x = 0%R) (Matrix.row exact weights i) ->
  (Matrix.entry (similarity_of_weights exact weights) i j = Some x -> x = 0%R)
  /\ (Matrix.entry (similarity_of_weights exact weights) j i = Some x -> x = 0%R).
Proof.
  intros Hz. split; intros H; apply similarity_entry in H; subst x.
  - apply sumprod_zero_l, transform_row_all_zero, Hz.
  - pose proof (sumprod_bound
                  (Normalizer.transform_row exact (Matrix.row exact weights j))
                  (Normalizer.transform_row exact (Matrix.row exact weights i))) as Hb.
    unfold sumprod in *.
    assert (E : forall a b : list R, Forall (fun x => x = 0%R) b ->
               fold_right (fun p s => (fst p * snd p + s)%R) 0%R (combine a b) = 0%R).
    { intros a b Hb0. revert a. induction Hb0 as [|y b Hy _ IH]; intros [|z a];
        simpl; try reflexivity. rewrite IH, Hy. lra. }
    apply E, transform_row_all_zero, Hz.
Qed.

Lemma idf_transform_row_zero_counts (idf : list R) (tf : list nat) :
  Forall (fun c => c = 0%nat) tf ->
  Forall (fun x => x = 0%R) (IDF.transform_row idf tf).
Proof.
  unfold IDF.transform_row. intros H. revert idf.
  induction H as [|c tf Hc _ IH]; intros [|w idf]; simpl; constructor.
  - subst c. simpl. lra.
  - apply IH.
Qed.

Lemma idf_transform_row_zero_idf (idf : list R) (tf : list nat) :
  Forall (fun x => x = 0%R) idf ->
  Forall (fun x => x = 0%R) (IDF.transform_row idf tf).
Proof.
  unfold IDF.transform_row. intros H. revert tf.
  induction H as [|w idf Hw _ IH]; intros [|c tf]; simpl; constructor.
  - subst w. simpl. lra.
  - apply IH.
Qed.

Lemma vocabulary_in_corpus (df : DataFrame) (t : token) :
  In t (CountVectorizer.fit df) -> exists r, In r df /\ In t (tokens r).
Proof.
  unfold CountVectorizer.fit. intros Ht. apply In_firstn_of in Ht.
  apply (Permutation_in _ (fold_insert_by_count_perm df _ [])) in Ht.
  apply nodup_In in Ht. now apply corpus_token_iff.
Qed.

(** X16: a restaurant of [tokens_df] none of whose tokens occurs in the
    frame [df] the vectorizer was fitted on gets an all-zero vector: its
    tokens are left out silently, and its whole row and column of the
    similarity array are 0, its self-similarity included. *)
Theorem unknown_tokens_zero_row (tokens_df df : DataFrame) (r : Row)
  (m : list (list R)) (j : nat) (x : R) :
  NoDup (map id tokens_df) ->
  In r tokens_df ->
  (forall t r', In t (tokens r) -> In r' df -> ~ In t (tokens r')) ->
  CosinusSimilarityClassifier.cosine_similarity
    (CosinusSimilarityClassifier.fit tokens_df
       CosinusSimilarityClassifier.init df) = Some m ->
  (Matrix.entry m (id r) j = Some x -> x = 0%R)
  /\ (Matrix.entry m j (id r) = Some x -> x = 0%R)
  /\ Matrix.entry m (id r) (id r) = Some 0%R.
Proof.
  intros Hnd Hr Hunknown Hm. rewrite fit_cosine_similarity in Hm.
  inversion Hm; subst m. clear Hm.
  assert (Hz : Forall (fun x => x = 0%R)
                 (Matrix.row exact
                    (CosinusSimilarityClassifier.idf_frame tokens_df df) (id r))).
  { rewrite (classifier_row tokens_df df r Hnd Hr). unfold row_weights.
    apply idf_transform_row_zero_counts.
    unfold CountVectorizer.transform_row. apply Forall_map, Forall_forall.
    intros t Ht. apply vocabulary_in_corpus in Ht. destruct Ht as (r' & Hr' & Ht).
    unfold CountVectorizer.term_count. apply count_occ_not_In.
    intros Hin. exact (Hunknown t r' Hin Hr' Ht). }
  destruct (zero_row_zero_entries _ (id r) j x Hz) as [H1 H2].
  split; [exact H1|]. split; [exact H2|].
  rewrite similarity_diagonal by now apply classifier_numRows.
  f_equal. apply sumsq_all_zero, transform_row_all_zero, Hz.
Qed.

Lemma unknown_tokens_zero_row_witness :
  NoDup (map id two_restaurants)
  /\ In (mkRow 1 ["Curry"%string]) two_restaurants
  /\ exists m,
       CosinusSimilarityClassifier.cosine_similarity
         (CosinusSimilarityClassifier.fit two_restaurants
            CosinusSimilarityClassifier.init one_restaurant) = Some m
       /\ Matrix.entry m 1 1 = Some 0%R.
Proof.
  assert (H1 : NoDup (map id two_restaurants)).
  { simpl. constructor; [simpl; intros [H|[]]; discriminate|].
    constructor; [simpl; tauto|constructor]. }
  assert (H2 : In (mkRow 1 ["Curry"%string]) two_restaurants)
    by (right; left; reflexivity).
  split; [exact H1|]. split; [exact H2|].
  eexists. split; [apply fit_cosine_similarity|].
  refine (proj2 (proj2 (unknown_tokens_zero_row two_restaurants one_restaurant
                          (mkRow 1 ["Curry"%string]) _ 0%nat 0%R H1 H2 _
                          (fit_cosine_similarity _ _ _)))).
  intros t r' Ht Hr' Ht'. simpl in Ht, Hr'.
  destruct Ht as [<-|[]]. destruct Hr' as [<-|[]]. simpl in Ht'.
  destruct Ht' as [H|[]]. discriminate.
Defined.

Lemma doc_freq_all (tfs : list (list nat)) (t : nat) :
  Forall (fun tf => (0 < nth t tf 0)%nat) tfs ->
  IDF.doc_freq tfs t = length tfs.
Proof.
  unfold IDF.doc_freq. induction 1 as [|tf tfs H _ IH]; simpl; [reflexivity|].
  destruct (Nat.ltb_spec 0 (nth t tf 0%nat)); [simpl; now rewrite IH|lia].
Qed.

Lemma row_all_zero (weights : list (nat * list R)) (i : nat) :
  Forall (fun r => Forall (fun x => x = 0%R) (snd r)) weights ->
  Forall (fun x => x = 0%R) (Matrix.row exact weights i).
Proof.
  intros H. unfold Matrix.row.
  destruct (find (fun r => fst r =? i) weights) as [r|] eqn:E.
  - apply find_some in E. destruct E as [Hin _].
    rewrite Forall_forall in H. now apply H.
  - cbn. apply Forall_forall. intros x Hx. now apply repeat_spec in Hx.
Qed.

Lemma fit_idfModel (tokens_df df : DataFrame)
  (self : CosinusSimilarityClassifier.t) :
  CosinusSimilarityClassifier.idfModel
    (CosinusSimilarityClassifier.fit tokens_df self df)
  = Some (IDF.fit (length (CountVectorizer.fit df))
            (map (fun r' => CountVectorizer.transform_row
                              (CountVectorizer.fit df) (tokens r'))
                 tokens_df)).
Proof.
  change (CosinusSimilarityClassifier.idfModel
            (CosinusSimilarityClassifier.fit tokens_df self df))
    with (Some (IDF.fit (length (CountVectorizer.fit df))
                  (map snd (CountVectorizer.transform
                              (CountVectorizer.fit df) tokens_df)))).
  unfold CountVectorizer.transform. rewrite map_map. reflexivity.
Qed.

(** X17: when every term of the vocabulary occurs in every row of
    [tokens_df], in particular for a single restaurant or for restaurants
    with the same features, the fitted model holds one inverse document
    frequency for each term of the vocabulary and every one of them is 0,
    and the similarity array is computed and every entry of it is 0, the
    diagonal included. *)
Theorem shared_terms_zero_array (tokens_df df : DataFrame) :
  (forall t r, In t (CountVectorizer.fit df) -> In r tokens_df ->
               In t (tokens r)) ->
  (exists idf : list R,
     CosinusSimilarityClassifier.idfModel
       (CosinusSimilarityClassifier.fit tokens_df
          CosinusSimilarityClassifier.init df) = Some idf
     /\ length idf = length (CountVectorizer.fit df)
     /\ Forall (fun w => w = 0%R) idf)
  /\ (exists m : list (list R),
        CosinusSimilarityClassifier.cosine_similarity
          (CosinusSimilarityClassifier.fit tokens_df
             CosinusSimilarityClassifier.init df) = Some m
        /\ forall (i j : nat) (x : R), Matrix.entry m i j = Some x -> x = 0%R).
Proof.
  intros Hall.
  assert (Hidf : Forall (fun w => w = 0%R)
                   (IDF.fit (length (CountVectorizer.fit df))
                      (map (fun r' => CountVectorizer.transform_row
                                        (CountVectorizer.fit df) (tokens r'))
                           tokens_df))).
  { unfold IDF.fit. apply Forall_map, Forall_forall. intros t Ht.
    apply in_seq in Ht.
    rewrite doc_freq_all; [apply idf_value_all_docs|].
    apply Forall_map, Forall_forall. intros r Hr.
    unfold CountVectorizer.transform_row.
    rewrite (nth_map_in _ (CountVectorizer.fit df) EmptyString 0%nat) by lia.
    unfold CountVectorizer.term_count. apply count_occ_In.
    apply Hall; [apply nth_In; lia|exact Hr]. }
  assert (Hz : Forall (fun r => Forall (fun x => x = 0%R) (snd r))
                 (CosinusSimilarityClassifier.idf_frame tokens_df df)).
  { apply Forall_forall. intros [i' w] Hin.
    apply idf_frame_rows in Hin. destruct Hin as (r & _ & _ & ->).
    cbn [snd]. unfold row_weights. now apply idf_transform_row_zero_idf. }
  split.
  - eexists. split; [apply fit_idfModel|]. split; [|exact Hidf].
    unfold IDF.fit. now rewrite length_map, length_seq.
  - eexists. split; [apply fit_cosine_similarity|].
    intros i j x Hx.
    exact (proj1 (zero_row_zero_entries _ i j x (row_all_zero _ i Hz)) Hx).
Qed.

Lemma shared_terms_zero_array_witness :
  (exists idf : list R,
     CosinusSimilarityClassifier.idfModel
       (CosinusSimilarityClassifier.fit one_restaurant
          CosinusSimilarityClassifier.init one_restaurant) = Some idf
     /\ length idf = length (CountVectorizer.fit one_restaurant)
     /\ Forall (fun w => w = 0%R) idf)
  /\ (exists m : list (list R),
        CosinusSimilarityClassifier.cosine_similarity
          (CosinusSimilarityClassifier.fit one_restaurant
             CosinusSimilarityClassifier.init one_restaurant) = Some m
        /\ forall (i j : nat) (x : R), Matrix.entry m i j = Some x -> x = 0%R).
Proof.
  apply (shared_terms_zero_array one_restaurant one_restaurant).
  intros t r Ht Hr. rewrite one_restaurant_vocabulary in Ht.
  destruct Ht as [<-|[]]. destruct Hr as [<-|[]]. left. reflexivity.
Defined.

(** ** Restaurants without a common term *)

Lemma transform_row_scaling (v : list R) :
  exists c : R, Normalizer.transform_row exact v = map (fun x => (x / c)%R) v.
Proof.
  destruct (Req_dec_T (sumsq v) 0) as [E|N].
  - exists 1%R. rewrite (transform_row_zero v E).
    rewrite <- (map_id v) at 1. apply map_ext. intros x. lra.
  - eexists. now apply transform_row_scaled.
Qed.

Lemma sumprod_orthogonal (a b : list R) :
  Forall (fun p => fst p = 0%R \/ snd p = 0%R) (combine a b) ->
  sumprod a b = 0%R.
Proof.
  unfold sumprod. induction 1 as [|p l Hp _ IH]; simpl; [reflexivity|].
  rewrite IH. destruct Hp as [-> | ->]; lra.
Qed.

Lemma orthogonal_scaled (a b : list R) (c d : R) :
  Forall (fun p => fst p = 0%R \/ snd p = 0%R) (combine a b) ->
  Forall (fun p => fst p = 0%R \/ snd p = 0%R)
    (combine (map (fun x => (x / c)%R) a) (map (fun x => (x / d)%R) b)).
Proof.
  revert b. induction a as [|x a IH]; intros [|y b] H; simpl; try constructor.
  - inversion H as [|? ? Hp _]; subst. cbn [fst snd] in *.
    destruct Hp as [-> | ->]; [left|right]; unfold Rdiv; lra.
  - apply IH. now inversion H.
Qed.

Lemma weights_orthogonal (idf : list R) (voc : list token) (c1 c2 : token -> nat) :
  (forall t, In t voc -> c1 t = 0%nat \/ c2 t = 0%nat) ->
  Forall (fun p => fst p = 0%R \/ snd p = 0%R)
    (combine (IDF.transform_row idf (map c1 voc))
             (IDF.transform_row idf (map c2 voc))).
Proof.
  unfold IDF.transform_row. revert idf.
  induction voc as [|t voc IH]; intros [|w idf] H; simpl; try constructor.
  - cbn [fst snd]. destruct (H t (or_introl eq_refl)) as [-> | ->];
      [left|right]; simpl; lra.
  - apply IH. intros u Hu. apply H. now right.
Qed.

(** X18: two restaurants of [tokens_df] that have no token in common have
    similarity 0. *)
Theorem disjoint_restaurants_zero (tokens_df df : DataFrame) (r1 r2 : Row)
  (m : list (list R)) :
  NoDup (map id tokens_df) ->
  In r1 tokens_df -> In r2 tokens_df ->
  (forall t, In t (tokens r1) -> ~ In t (tokens r2)) ->
  CosinusSimilarityClassifier.cosine_similarity
    (CosinusSimilarityClassifier.fit tokens_df
       CosinusSimilarityClassifier.init df) = Some m ->
  Matrix.entry m (id r1) (id r2) = Some 0%R.
Proof.
  intros Hnd H1 H2 Hdisj Hm. rewrite fit_cosine_similarity in Hm.
  inversion Hm; subst m. clear Hm. unfold similarity_of_weights.
  rewrite entry_in_range
    by (rewrite numRows_transform; now apply classifier_numRows).
  rewrite dot_exact, !row_transform_exact.
  rewrite (classifier_row tokens_df df r1 Hnd H1),
    (classifier_row tokens_df df r2 Hnd H2).
  f_equal. apply sumprod_orthogonal.
  destruct (transform_row_scaling (row_weights tokens_df df r1)) as [c ->].
  destruct (transform_row_scaling (row_weights tokens_df df r2)) as [d ->].
  apply orthogonal_scaled. unfold row_weights, CountVectorizer.transform_row.
  apply weights_orthogonal. intros t _. unfold CountVectorizer.term_count.
  destruct (in_dec string_dec t (tokens r1)) as [Hin|Hnin].
  - right. apply count_occ_not_In. now apply Hdisj.
  - left. now apply count_occ_not_In.
Qed.

Lemma disjoint_restaurants_zero_witness :
  NoDup (map id two_restaurants)
  /\ Matrix.entry (similarity_of_weights exact
                     (CosinusSimilarityClassifier.idf_frame
                        two_restaurants two_restaurants)) 0 1 = Some 0%R.
Proof.
  assert (H1 : NoDup (map id two_restaurants)).
  { simpl. constructor; [simpl; intros [H|[]]; discriminate|].
    constructor; [simpl; tauto|constructor]. }
  split; [exact H1|].
  eapply (disjoint_restaurants_zero two_restaurants two_restaurants
            (mkRow 0 ["Italian"%string; "Pizza"%string])
            (mkRow 1 ["Curry"%string])); [exact H1| | | |].
  - left. reflexivity.
  - right. left. reflexivity.
  - simpl. intros t [<-|[<-|[]]] [H|[]]; discriminate.
  - apply fit_cosine_similarity.
Defined.

(** ** Restaurants with the same features *)

(** X19: two restaurants of [tokens_df] whose token lists hold the same
    tokens the same number of times, in any order, have the same similarity
    to every restaurant. *)
Theorem same_tokens_same_similarities (tokens_df df : DataFrame) (r1 r2 : Row)
  (m : list (list R)) (j : nat) :
  NoDup (map id tokens_df) ->
  In r1 tokens_df -> In r2 tokens_df ->
  Permutation (tokens r1) (tokens r2) ->
  CosinusSimilarityClassifier.cosine_similarity
    (CosinusSimilarityClassifier.fit tokens_df
       CosinusSimilarityClassifier.init df) = Some m ->
  Matrix.entry m (id r1) j = Matrix.entry m (id r2) j.
Proof.
  intros Hnd H1 H2 Hperm Hm. rewrite fit_cosine_similarity in Hm.
  inversion Hm; subst m. clear Hm. unfold similarity_of_weights.
  set (frame := CosinusSimilarityClassifier.idf_frame tokens_df df).
  destruct (Nat.lt_ge_cases j (Matrix.numRows (Normalizer.transform exact frame)))
    as [Hj|Hj].
  - rewrite !entry_in_range
      by (try exact Hj; rewrite numRows_transform; now apply classifier_numRows).
    rewrite !row_transform_exact. unfold frame.
    rewrite (classifier_row tokens_df df r1 Hnd H1),
      (classifier_row tokens_df df r2 Hnd H2).
    assert (Hc : forall voc,
               CountVectorizer.transform_row voc (tokens r1)
               = CountVectorizer.transform_row voc (tokens r2)).
    { intros voc.
      unfold CountVectorizer.transform_row, CountVectorizer.term_count.
      apply map_ext. intros t.
      apply (proj1 (Permutation_count_occ string_dec (tokens r1) (tokens r2))).
      exact Hperm. }
    unfold row_weights. cbv zeta. rewrite Hc. reflexivity.
  - now rewrite !entry_out_of_range by (right; exact Hj).
Qed.

Lemma same_tokens_same_similarities_witness :
  NoDup (map id three_restaurants)
  /\ Matrix.entry (similarity_of_weights exact
                     (CosinusSimilarityClassifier.idf_frame
                        three_restaurants three_restaurants)) 0 2
     = Matrix.entry (similarity_of_weights exact
                       (CosinusSimilarityClassifier.idf_frame
                          three_restaurants three_restaurants)) 1 2.
Proof.
  assert (H1 : NoDup (map id three_restaurants)).
  { simpl. repeat constructor; simpl; intros H;
      repeat (destruct H as [H|H]; [discriminate|]); exact H. }
  split; [exact H1|].
  eapply (same_tokens_same_similarities three_restaurants three_restaurants
            (mkRow 0 ["Italian"%string; "Pizza"%string])
            (mkRow 1 ["Italian"%string; "Pizza"%string]));
    [exact H1| | | |apply fit_cosine_similarity].
  - left. reflexivity.
  - right. left. reflexivity.
  - apply Permutation_refl.
Defined.

(** ** Identifiers without a restaurant *)



(** ** The normaliser and the inverse document frequency *)

(** X21: in exact arithmetic, normalising a normalised vector changes
    nothing, and a normalised vector has norm 1 unless it is all zero. *)
Theorem normalizer_idempotent (v : list R) :
  Normalizer.transform_row exact (Normalizer.transform_row exact v)
  = Normalizer.transform_row exact v
  /\ (Normalizer.norm exact v <> 0%R ->
      Normalizer.norm exact (Normalizer.transform_row exact v) = 1%R).
Proof.
  split.
  - destruct (Req_dec_T (sumsq v) 0) as [E|N].
    + rewrite (transform_row_zero v E). now apply transform_row_zero.
    + pose proof (sumsq_transform_row_unit v N) as H1.
      rewrite (transform_row_scaled (Normalizer.transform_row exact v))
        by (rewrite H1; lra).
      rewrite H1, sqrt_1. rewrite <- (map_id (Normalizer.transform_row exact v)) at 2.
      apply map_ext. intros x. lra.
  - intros Hn. rewrite norm_exact.
    rewrite sumsq_transform_row_unit; [apply sqrt_1|].
    intros E. apply Hn. now apply norm_zero_iff.
Qed.

Lemma normalizer_idempotent_witness :
  Normalizer.norm exact [3%R; 4%R] <> 0%R
  /\ Normalizer.norm exact (Normalizer.transform_row exact [3%R; 4%R]) = 1%R.
Proof.
  assert (H : Normalizer.norm exact [3%R; 4%R] <> 0%R).
  { intros E. apply norm_zero_iff in E. cbn in E. lra. }
  split; [exact H|].
  exact (proj2 (normalizer_idempotent [3%R; 4%R]) H).
Defined.

(** X22: of two terms of the vocabulary, the one found in fewer rows has the
    strictly larger inverse document frequency. *)
Theorem rarer_term_weighs_more (size : nat) (tfs : list (list nat))
  (t1 t2 : nat) :
  (t1 < size)%nat -> (t2 < size)%nat ->
  (IDF.doc_freq tfs t1 < IDF.doc_freq tfs t2)%nat ->
  (nth t2 (IDF.fit size tfs) 0 < nth t1 (IDF.fit size tfs) 0)%R.
Proof.
  intros H1 H2 Hlt. rewrite !idf_fit_nth by assumption. rewrite !idf_value_eq.
  apply lt_INR in Hlt.
  pose proof (pos_INR (IDF.doc_freq tfs t1)) as Hp1.
  pose proof (pos_INR (length tfs)) as Hm.
  apply ln_increasing.
  - apply Rdiv_lt_0_compat; lra.
  - unfold Rdiv. apply Rmult_lt_compat_l; [lra|].
    apply Rinv_lt_contravar; [|lra]. apply Rmult_lt_0_compat; lra.
Qed.

Lemma rarer_term_weighs_more_witness :
  (IDF.doc_freq [[1; 1]; [0; 1]]%nat 0 < IDF.doc_freq [[1; 1]; [0; 1]]%nat 1)%nat
  /\ (nth 1 (IDF.fit 2 [[1; 1]; [0; 1]]%nat) 0
      < nth 0 (IDF.fit 2 [[1; 1]; [0; 1]]%nat) 0)%R.
Proof.
  assert (H : (IDF.doc_freq [[1; 1]; [0; 1]]%nat 0
               < IDF.doc_freq [[1; 1]; [0; 1]]%nat 1)%nat)
    by (vm_compute; lia).
  split; [exact H|].
  apply (rarer_term_weighs_more 2 [[1; 1]; [0; 1]]%nat 0 1); [lia|lia|exact H].
Defined.

(** ** Rejected lines *)

Lemma restaurant_of_line_fails_iff_witness :
  (Py.count Py.tab ("0000008" ++ String Py.tab "Pattaya") < 2)%nat
  /\ Loader.restaurant_of_line ("0000008" ++ String Py.tab "Pattaya") = None
  /\ (2 <= Py.count Py.tab
             ("0000008" ++ String Py.tab ("Pattaya" ++ String Py.tab "026 163")))%nat
  /\ Loader.restaurant_of_line
       (("0000008" ++ String Py.tab ("Pattaya" ++ String Py.tab "026 163"))
        ++ String Py.tab "Bangkok")
     = Some (Loader.mkRestaurant "0000008" "Pattaya" "026" "163").
Proof.
  assert (H : (Py.count Py.tab ("0000008" ++ String Py.tab "Pattaya") < 2)%nat)
    by (vm_compute; lia).
  assert (H' : (2 <= Py.count Py.tab
                  ("0000008" ++ String Py.tab
                     ("Pattaya" ++ String Py.tab "026 163")))%nat)
    by (vm_compute; lia).
  split; [exact H|].
  split; [exact (proj2 (proj1 (restaurant_of_line_fails_iff _)) H)|].
  split; [exact H'|].
  rewrite (proj2 (proj2 (restaurant_of_line_fails_iff _)) "Bangkok"%string H').
  reflexivity.
Defined.

Lemma session_of_line_fails_iff_witness :
  (Py.count Py.tab ("01/Oct/1996:10:08:41 " ++ String Py.tab
                      ("keeper.tribune.com" ++ String Py.tab "0")) < 3)%nat
  /\ Loader.session_of_line
       ("01/Oct/1996:10:08:41 " ++ String Py.tab
          ("keeper.tribune.com" ++ String Py.tab "0")) = None.
Proof.
  assert (H : (Py.count Py.tab ("01/Oct/1996:10:08:41 " ++ String Py.tab
                                  ("keeper.tribune.com" ++ String Py.tab "0"))
               < 3)%nat) by (vm_compute; lia).
  split; [exact H|].
  exact (proj2 (session_of_line_fails_iff _) H).
Defined.

Lemma tokens_to_words_fails_iff_witness :
  Exists (fun line => Py.count Py.tab line <> 1%nat)
    [("026" ++ String Py.tab "Cab")%string; "214 Parking"%string]
  /\ Loader.tokens_to_words
       [("026" ++ String Py.tab "Cab")%string; "214 Parking"%string] = None.
Proof.
  assert (H : Exists (fun line => Py.count Py.tab line <> 1%nat)
                [("026" ++ String Py.tab "Cab")%string; "214 Parking"%string]).
  { apply Exists_cons_tl, Exists_cons_hd. vm_compute. discriminate. }
  split; [exact H|].
  exact (proj2 (tokens_to_words_fails_iff _) H).
Defined.

Lemma flatten_phrases_spec_witness :
  Loader.flatten_phrases [("026", "Wheelchair Access")]%string ["026"%string]
  = Some ["Wheelchair"; "Access"]%string
  /\ Forall (fun w => Sessions.contains " " w = false)
       ["Wheelchair"; "Access"]%string.
Proof.
  assert (H : Loader.flatten_phrases [("026", "Wheelchair Access")]%string
                ["026"%string] = Some ["Wheelchair"; "Access"]%string)
    by reflexivity.
  split; [exact H|].
  exact (proj1 (proj2 (flatten_phrases_spec _ _) _ H)).
Defined.
